(** * mcp_pandas: the four request handlers of [server.py]

    [server.py] is request/response glue: every handler builds a table from
    the request, calls a handful of pandas / matplotlib / seaborn functions
    and wraps any exception into an HTTP 400 response.

    The handlers are embedded line by line.  The third-party calls they make
    are embedded in two layers:
    - the structural part of pandas that the handlers rely on (table
      construction from a dict of lists, column selection, which columns
      [describe] keeps, non-null counts, the unique-column check of
      [to_json], the float conversion of [corr]) is written out as
      executable definitions in [Module pd], following pandas 2.x;
    - everything numeric, binary or textual (the dtype pandas infers for a
      list of scalars, means, quantiles, correlation coefficients, PNG
      bytes, [repr] of a label, message texts) is
      either represented by the data it is computed from or a field of the
      record [Lib]; the theorems hold for every [Lib].  The CSV parser is a
      section variable of the one handler that calls it. *)

From Stdlib Require Import ZArith List String Ascii Bool Lia DecimalString.
Import ListNotations.
Local Open Scope string_scope.
Local Open Scope Z_scope.

(** ** Python values and exceptions *)

(** A scalar of a JSON body: [None], a bool, an int, a finite float
    (decimal mantissa and exponent, as parsed from the JSON text) or a
    string. *)
Inductive value : Type :=
  | VNull
  | VBool (b : bool)
  | VInt (z : Z)
  | VFloat (m e : Z)
  | VStr (s : string).

(** [Dict[str, List[Any]]]: a Python dict keeps insertion order and has
    unique keys. *)
Definition data_dict : Type := list (string * list value).

Definition names {A : Type} (d : list (string * A)) : list string := map fst d.

(** The exceptions the handlers see: their own [HTTPException], or an
    exception of a library (any subclass of [Exception]) with the text that
    [str(e)] gives for it. *)
Inductive exn : Type :=
  | HTTPException (status_code : Z) (detail : string)
  | LibError (cls : string) (msg : string).

Inductive result (A : Type) : Type :=
  | Ok (a : A)
  | Raise (e : exn).
Arguments Ok {A} a.
Arguments Raise {A} e.

Definition bind {A B : Type} (r : result A) (k : A -> result B) : result B :=
  match r with
  | Ok a => k a
  | Raise e => Raise e
  end.

Declare Scope py_scope.
Delimit Scope py_scope with py.
Notation "x <- c ;; k" := (bind c (fun x => k))
  (at level 61, c at next level, right associativity) : py_scope.

(** What a client receives from a handler. *)
Inductive response (A : Type) : Type :=
  | JSONResponse (content : A)
  | HTTPError (status_code : Z) (detail : string).
Arguments JSONResponse {A} content.
Arguments HTTPError {A} status_code detail.

(** ** Strings *)

Fixpoint starts_with (p s : string) : bool :=
  match p, s with
  | EmptyString, _ => true
  | String a p', String b s' => Ascii.eqb a b && starts_with p' s'
  | String _ _, EmptyString => false
  end.

Fixpoint contains (needle hay : string) : bool :=
  starts_with needle hay ||
  match hay with
  | EmptyString => false
  | String _ hay' => contains needle hay'
  end.

(** [mentions needle hay]: [needle] occurs in [hay]. *)
Definition mentions (needle hay : string) : Prop :=
  exists pre post, hay = pre ++ needle ++ post.

(** [if columns:] / [if title:] on an optional list or string. *)
Definition truthy_list {A : Type} (o : option (list A)) : bool :=
  match o with
  | Some (_ :: _) => true
  | _ => false
  end.

Definition truthy_str (o : option string) : bool :=
  match o with
  | Some (String _ _) => true
  | _ => false
  end.

Definition is_None {A : Type} (o : option A) : bool :=
  match o with
  | None => true
  | Some _ => false
  end.

(** ** The fragment of pandas the handlers use *)

Module pd.

Inductive dtype : Type := bool_ | int64 | uint64 | float64 | object_.

Definition dtype_str (t : dtype) : string :=
  match t with
  | bool_ => "bool"
  | int64 => "int64"
  | uint64 => "uint64"
  | float64 => "float64"
  | object_ => "object"
  end.

(** [np.number] covers the integer and float dtypes, not [bool]. *)
Definition is_number_dtype (t : dtype) : bool :=
  match t with
  | int64 | uint64 | float64 => true
  | _ => false
  end.

Definition isna (v : value) : bool :=
  match v with VNull => true | _ => false end.
Definition notna (v : value) : bool := negb (isna v).

Record Series : Type := mkSeries { dtype_of : dtype; values : list value }.

(** A table: its columns in order.  Column labels of a table may repeat
    (after [df[["a", "a"]]]). *)
Definition DataFrame : Type := list (string * Series).

Definition columns (df : DataFrame) : list string := names df.

Definition nrows (df : DataFrame) : nat :=
  match df with
  | [] => 0%nat
  | (_, s) :: _ => List.length (values s)
  end.

(** [df.shape] *)
Definition shape (df : DataFrame) : nat * nat := (nrows df, List.length df).

Definition same_length (d : data_dict) : bool :=
  match d with
  | [] => true
  | (_, vs) :: d' =>
      forallb (fun c => Nat.eqb (List.length (snd c)) (List.length vs)) d'
  end.

(** [pd.DataFrame(data)] for a dict of lists; [infer_dtype] is the dtype
    pandas infers for a list of scalars. *)
Definition mk_DataFrame (infer_dtype : list value -> dtype) (d : data_dict)
  : result DataFrame :=
  if same_length d
  then Ok (map (fun c => (fst c, mkSeries (infer_dtype (snd c)) (snd c))) d)
  else Raise (LibError "ValueError" "All arrays must be of the same length").

Fixpoint lookup {A : Type} (k : string) (l : list (string * A)) : option A :=
  match l with
  | [] => None
  | (k', a) :: l' => if String.eqb k k' then Some a else lookup k l'
  end.

Definition has_column (df : DataFrame) (c : string) : bool :=
  existsb (String.eqb c) (columns df).

(** All columns labelled [c], in table order. *)
Definition pick (df : DataFrame) (c : string) : DataFrame :=
  filter (fun col => String.eqb c (fst col)) df.

(** [df.dtypes.astype(str)] and [df.count()], as (label, value) series. *)
Definition dtypes (df : DataFrame) : list (string * string) :=
  map (fun col => (fst col, dtype_str (dtype_of (snd col)))) df.

Definition count_values (vs : list value) : nat :=
  List.length (filter notna vs).

Definition count (df : DataFrame) : list (string * nat) :=
  map (fun col => (fst col, count_values (values (snd col)))) df.

(** [df.select_dtypes(include=[np.number])] *)
Definition select_number (df : DataFrame) : DataFrame :=
  filter (fun col => is_number_dtype (dtype_of (snd col))) df.

(** [Series.to_dict()]: a later entry with the same label replaces the
    value of the earlier one, which keeps its place. *)
Fixpoint dict_set {A : Type} (k : string) (a : A) (d : list (string * A))
  : list (string * A) :=
  match d with
  | [] => [(k, a)]
  | (k', a') :: d' =>
      if String.eqb k k' then (k', a) :: d' else (k', a') :: dict_set k a d'
  end.

Definition to_dict {A : Type} (s : list (string * A)) : list (string * A) :=
  fold_left (fun d kv => dict_set (fst kv) (snd kv) d) s [].

Fixpoint unique (l : list string) : bool :=
  match l with
  | [] => true
  | x :: l' => negb (existsb (String.eqb x) l') && unique l'
  end.

(** [df[c]] for one label: the column, or [KeyError(c)], whose text is
    [repr(c)]. *)
Definition getitem (repr : string -> string) (df : DataFrame) (c : string)
  : result Series :=
  match lookup c df with
  | Some s => Ok s
  | None => Raise (LibError "KeyError" (repr c))
  end.

(** [df[cols]] for a list of labels: the columns in the order asked for,
    or [KeyError] when a label is missing; [key_error_msg] is the text
    pandas builds from the labels asked for and the missing ones. *)
Definition getitem_list (key_error_msg : list string -> list string -> string)
    (df : DataFrame) (cols : list string) : result DataFrame :=
  match filter (fun c => negb (has_column df c)) cols with
  | [] => Ok (flat_map (pick df) cols)
  | missing => Raise (LibError "KeyError" (key_error_msg cols missing))
  end.

(** One column of [df.describe()].  [count] is computed; the other
    entries (mean, std, min, quartiles, max for a number column; unique,
    top, freq otherwise) are floats or labels that no handler looks at,
    and are represented by the column they are computed from. *)
Inductive summary : Type :=
  | NumberSummary (vs : list value)
  | ObjectSummary (vs : list value).

Record col_stats : Type := mkStats { stat_count : nat; stat_rest : summary }.

Definition describe_1d (s : Series) : col_stats :=
  mkStats (count_values (values s))
          (if is_number_dtype (dtype_of s)
           then NumberSummary (values s) else ObjectSummary (values s)).

(** [df.describe()]: the number columns; all columns when there is no
    number column; an error when there is no column at all. *)
Definition describe (df : DataFrame) : result (list (string * col_stats)) :=
  match df with
  | [] => Raise (LibError "ValueError"
                   "Cannot describe a DataFrame without columns")
  | _ =>
    let data := match select_number df with
                | [] => df
                | num => num
                end in
    Ok (map (fun col => (fst col, describe_1d (snd col))) data)
  end.

(** [frame.to_json()] followed by [json.loads]: column labels become the
    keys of a JSON object and have to be unique. *)
Definition to_json {A : Type} (frame : list (string * A))
  : result (list (string * A)) :=
  if unique (names frame) then Ok frame
  else Raise (LibError "ValueError"
                "DataFrame columns must be unique for orient='columns'.").

(** A correlation coefficient is a float; it is represented by the two
    columns it is computed from. *)
Inductive coef : Type := Pearson (xs ys : list value).

Definition corr_matrix : Type := list (string * list (string * coef)).

(** The first string of the table that [float()] rejects. *)
Definition not_float (str_is_float : string -> bool) (v : value)
  : option string :=
  match v with
  | VStr s => if str_is_float s then None else Some s
  | _ => None
  end.

Fixpoint first_some {A B : Type} (f : A -> option B) (l : list A)
  : option B :=
  match l with
  | [] => None
  | a :: l' => match f a with
               | Some b => Some b
               | None => first_some f l'
               end
  end.

(** [df.corr()] (pandas 2.x, where [numeric_only] defaults to [False]):
    the whole table is converted to floats first, which fails on a string
    that is not a float literal. *)
Definition corr (str_is_float : string -> bool) (df : DataFrame)
  : result corr_matrix :=
  match first_some (fun col => first_some (not_float str_is_float)
                                 (values (snd col))) df with
  | Some s => Raise (LibError "ValueError"
                ("could not convert string to float: '" ++ s ++ "'"))
  | None =>
    Ok (map (fun ci =>
          (fst ci,
           map (fun cj => (fst cj, Pearson (values (snd cj)) (values (snd ci))))
               df)) df)
  end.

End pd.

(** ** matplotlib's pyplot: the global figure registry *)

Module plt.

(** What a drawing call puts on a figure.  The pixels are not modelled: a
    figure is the list of the calls that drew on it. *)
Inductive artist : Type :=
  | LinePlot (df : pd.DataFrame) (x y : option string)
  | Scatter (xs ys : pd.Series)
  | Hist (s : pd.Series)
  | Heatmap (m : pd.corr_matrix)
  | Title (t : string).

Record figure : Type := mkFigure { num : nat; artists : list artist }.

(** The registry: the open figures, the current one first. *)
Record state : Type := mkState { figs : list figure }.

Definition open_nums (st : state) : list nat := map num (figs st).

(** The number pyplot gives a new figure: one more than the largest number
    that is open, 1 when none is. *)
Definition next_num (st : state) : nat := S (list_max (open_nums st)).
Arguments next_num : simpl never.

(** [plt.figure()]: opens a new figure and makes it current. *)
Definition new_figure (st : state) : nat * state :=
  (next_num st, mkState (mkFigure (next_num st) [] :: figs st)).

(** Drawing on the current figure (pyplot opens one when none is). *)
Definition add_artist (a : artist) (st : state) : state :=
  match figs st with
  | f :: fs => mkState (mkFigure (num f) (artists f ++ [a]) :: fs)
  | [] => mkState [mkFigure (next_num st) [a]]
  end.

(** [plt.close()]: closes the current figure. *)
Definition close (st : state) : state := mkState (tl (figs st)).

Definition gcf (st : state) : option figure := hd_error (figs st).

End plt.

(** ** What is left abstract of the libraries *)

Record Lib : Type := mkLib {
  (** [str(e)] of the web framework's [HTTPException] *)
  http_str : Z -> string -> string;
  (** the dtype pandas infers for a list of scalars *)
  infer_dtype : list value -> pd.dtype;
  (** [repr(c)] of a string *)
  repr : string -> string;
  (** text of the [KeyError] of [df[cols]], from the labels asked for and
      the missing ones *)
  key_error_msg : list string -> list string -> string;
  (** whether [float(s)] accepts the string *)
  str_is_float : string -> bool;
  (** the exception a drawing call raises, if it raises *)
  draw_error : plt.artist -> option exn;
  (** the exception [plt.savefig] raises on a figure, if it raises *)
  savefig_error : plt.figure -> option exn
}.

(** [str(e)] *)
Definition str (L : Lib) (e : exn) : string :=
  match e with
  | HTTPException status_code detail => http_str L status_code detail
  | LibError _ msg => msg
  end.

(** [try: ... except Exception as e: raise HTTPException(status_code=400,
    detail=str(e))] *)
Definition except_400 {A : Type} (L : Lib) (r : result A) : response A :=
  match r with
  | Ok content => JSONResponse content
  | Raise e => HTTPError 400 (str L e)
  end.

(** ** read_csv *)

Record UploadFile : Type := mkUpload { read : result (list Byte.byte) }.

Record csv_content : Type := mkCsv {
  csv_data : list (list (string * value));
  csv_columns : list string;
  csv_shape : nat * nat
}.

Section CsvIngestion.

(** The decoder and the CSV parser are used as they come:
    [bytes.decode('utf-8')], [pd.read_csv] on the text, and
    [json.loads(df.to_json(orient='records'))]. *)
Variable decode_utf8 : list Byte.byte -> result string.
Variable pd_read_csv : string -> result pd.DataFrame.
Variable to_json_records :
  pd.DataFrame -> result (list (list (string * value))).

Definition read_csv_body (file : UploadFile) : result csv_content :=
  (content <- read file ;;
   text <- decode_utf8 content ;;
   df <- pd_read_csv text ;;
   records <- to_json_records df ;;
   Ok (mkCsv records (pd.columns df) (pd.shape df)))%py.

Definition read_csv (L : Lib) (file : UploadFile) : response csv_content :=
  except_400 L (read_csv_body file).

End CsvIngestion.

(** ** describe *)

Record describe_content : Type := mkDescribe {
  statistics : list (string * pd.col_stats);
  dtypes : list (string * string)
}.

Definition describe_body (L : Lib) (data : data_dict)
  : result describe_content :=
  (df <- pd.mk_DataFrame (infer_dtype L) data ;;
   description <- pd.describe df ;;
   stats <- pd.to_json description ;;
   Ok (mkDescribe stats (pd.to_dict (pd.dtypes df))))%py.

Definition describe (L : Lib) (data : data_dict) : response describe_content :=
  except_400 L (describe_body L data).

(** ** analyze *)

Record info_content : Type := mkInfo {
  info_dtypes : list (string * string);
  non_null_counts : list (string * nat)
}.

Record analyze_content : Type := mkAnalyze {
  description : list (string * pd.col_stats);
  correlation : pd.corr_matrix;
  info : info_content
}.

Definition analyze_body (L : Lib) (data : data_dict)
    (columns : option (list string)) : result analyze_content :=
  (df0 <- pd.mk_DataFrame (infer_dtype L) data ;;
   df <- (if truthy_list columns
          then pd.getitem_list (key_error_msg L) df0
                 (match columns with Some cs => cs | None => [] end)
          else Ok df0) ;;
   description <- pd.describe df ;;
   correlation <- pd.corr (str_is_float L) (pd.select_number df) ;;
   let info := mkInfo (pd.to_dict (pd.dtypes df)) (pd.to_dict (pd.count df)) in
   d <- pd.to_json description ;;
   c <- pd.to_json correlation ;;
   Ok (mkAnalyze d c info))%py.

Definition analyze (L : Lib) (data : data_dict) (columns : option (list string))
  : response analyze_content :=
  except_400 L (analyze_body L data columns).

(** ** plot *)

(** Code that reads and writes pyplot's figure registry and may raise; the
    registry keeps what was done to it before the exception. *)
Definition plotting (A : Type) : Type := plt.state -> result A * plt.state.

Definition pbind {A B : Type} (c : plotting A) (k : A -> plotting B)
  : plotting B :=
  fun st => match c st with
            | (Ok a, st') => k a st'
            | (Raise e, st') => (Raise e, st')
            end.

Definition pure {A : Type} (r : result A) : plotting A := fun st => (r, st).

Notation "x <~ c ;; k" := (pbind c (fun x => k))
  (at level 61, c at next level, right associativity) : py_scope.

(** [plt.figure(figsize=(10, 6))] *)
Definition plt_figure : plotting nat :=
  fun st => let (n, st') := plt.new_figure st in (Ok n, st').

(** A call that draws on the current figure. *)
Definition draw (L : Lib) (a : plt.artist) : plotting unit :=
  fun st => match draw_error L a with
            | Some e => (Raise e, st)
            | None => (Ok tt, plt.add_artist a st)
            end.

(** [df.plot(kind="line", ...)]: without an [ax] argument pandas opens a
    figure of its own and draws on that one. *)
Definition df_plot_line (L : Lib) (df : pd.DataFrame) (x y : option string)
  : plotting unit :=
  fun st => match draw_error L (plt.LinePlot df x y) with
            | Some e => (Raise e, st)
            | None => (Ok tt, plt.add_artist (plt.LinePlot df x y)
                                (snd (plt.new_figure st)))
            end.

(** [plt.savefig(buffer, format='png')]: the image of the current figure,
    represented by the figure. *)
Definition plt_savefig (L : Lib) : plotting plt.figure :=
  fun st =>
    let fig := match plt.gcf st with
               | Some f => f
               | None => plt.mkFigure (plt.next_num st) []
               end in
    match savefig_error L fig with
    | Some e => (Raise e, st)
    | None => (Ok fig, st)
    end.

Definition plt_close : plotting unit := fun st => (Ok tt, plt.close st).

(** The content [{"plot": <base64 of the PNG>}], by the figure rendered. *)
Record plot_content : Type := mkPlot { plot_png : plt.figure }.

Definition plot_body (L : Lib) (data : data_dict) (kind : string)
    (x y title : option string) : plotting plot_content :=
  (df <~ pure (pd.mk_DataFrame (infer_dtype L) data) ;;
   _ <~ plt_figure ;;
   _ <~ (if String.eqb kind "line" then
           match x, y with
           | Some _, Some _ => df_plot_line L df x y
           | _, _ => df_plot_line L df None None
           end
         else if String.eqb kind "scatter" then
           match x, y with
           | Some xc, Some yc =>
               xs <~ pure (pd.getitem (repr L) df xc) ;;
               ys <~ pure (pd.getitem (repr L) df yc) ;;
               draw L (plt.Scatter xs ys)
           | _, _ =>
               pure (Raise (HTTPException 400
                              "x and y are required for scatter plots"))
           end
         else if String.eqb kind "histogram" then
           match x with
           | Some xc =>
               xs <~ pure (pd.getitem (repr L) df xc) ;;
               draw L (plt.Hist xs)
           | None =>
               pure (Raise (HTTPException 400 "x is required for histograms"))
           end
         else if String.eqb kind "heatmap" then
           m <~ pure (pd.corr (str_is_float L) df) ;;
           draw L (plt.Heatmap m)
         else
           pure (Raise (HTTPException 400 ("Unsupported plot type: " ++ kind)))) ;;
   _ <~ (if truthy_str title
         then draw L (plt.Title (match title with Some t => t | None => "" end))
         else pure (Ok tt)) ;;
   png <~ plt_savefig L ;;
   _ <~ plt_close ;;
   pure (Ok (mkPlot png)))%py.

Definition plot (L : Lib) (data : data_dict) (kind : string)
    (x y title : option string) (st : plt.state)
  : response plot_content * plt.state :=
  let (r, st') := plot_body L data kind x y title st in (except_400 L r, st').

(** ** A reference library

    Starlette's [HTTPException.__str__] is ["{status_code}: {detail}"];
    drawing and saving never fail; [float()] is cut down to unsigned
    decimal integers, [repr] to labels without quotes or backslashes, dtype
    inference to the common cases.  It instantiates the general theorems on
    concrete requests. *)

Definition digit (a : ascii) : bool :=
  (48 <=? nat_of_ascii a)%nat && (nat_of_ascii a <=? 57)%nat.

Fixpoint all_digits (s : string) : bool :=
  match s with
  | EmptyString => true
  | String a s' => digit a && all_digits s'
  end.

Definition status_text (status_code : Z) : string :=
  NilZero.string_of_int (Z.to_int status_code).

Definition is_bool (v : value) : bool :=
  match v with VBool _ => true | _ => false end.
Definition is_int (v : value) : bool :=
  match v with VInt _ => true | _ => false end.
Definition is_real (v : value) : bool :=
  match v with VInt _ | VFloat _ _ => true | _ => false end.
Definition in_int64 (v : value) : bool :=
  match v with VInt z => (- 2 ^ 63 <=? z) && (z <? 2 ^ 63) | _ => false end.
Definition in_uint64 (v : value) : bool :=
  match v with VInt z => (0 <=? z) && (z <? 2 ^ 64) | _ => false end.

(** An empty list gives [float64]; all bools [bool]; all ints [int64], or
    [uint64] when they only fit unsigned; ints and floats, possibly with
    [None], [float64] when a number is there; everything else [object]. *)
Definition ref_infer_dtype (vs : list value) : pd.dtype :=
  match vs with
  | [] => pd.float64
  | _ =>
    if forallb is_bool vs then pd.bool_
    else if forallb is_int vs then
      if forallb in_int64 vs then pd.int64
      else if forallb in_uint64 vs then pd.uint64
      else pd.object_
    else if forallb (fun v => is_real v || pd.isna v) vs && existsb is_real vs
         then pd.float64
    else pd.object_
  end.

Definition ref_lib : Lib :=
  mkLib (fun status_code detail => status_text status_code ++ ": " ++ detail)
        ref_infer_dtype
        (fun c => "'" ++ c ++ "'")
        (fun cols missing =>
           if Nat.eqb (List.length missing) (List.length cols)
           then "None of [" ++ String.concat ", " cols ++ "] are in the [columns]"
           else "[" ++ String.concat ", " missing ++ "] not in index")
        (fun s => negb (String.eqb s "") && all_digits s)
        (fun _ => None)
        (fun _ => None).

(** No figure is open when the server starts. *)
Definition st0 : plt.state := plt.mkState [].

(** Requests used below. *)
Definition d_mismatch : data_dict := [("a", [VInt 1; VInt 2]); ("b", [VInt 1])].
Definition d_mixed : data_dict :=
  [("a", [VInt 1; VInt 2]); ("b", [VStr "x"; VStr "y"])].
Definition d_num : data_dict :=
  [("a", [VInt 1; VNull; VInt 3]); ("b", [VFloat 15 (-1); VInt 2; VInt 4])].

(** The kinds [plot] knows. *)
Definition plot_kinds : list string := ["line"; "scatter"; "histogram"; "heatmap"].

(** [str()] of an [HTTPException] shows its detail (true of Starlette's
    [__str__], which gives ["400: <detail>"]). *)
Definition shows_detail (L : Lib) : Prop :=
  forall status_code detail, mentions detail (http_str L status_code detail).

(** A column that gets a number dtype holds no string (true of pandas,
    which keeps a list with a string as objects). *)
Definition number_dtypes_hold_no_string (L : Lib) : Prop :=
  forall vs s, pd.is_number_dtype (infer_dtype L vs) = true -> ~ In (VStr s) vs.

(** ** Vocabulary of the statements *)

(** The table [pd.DataFrame(data)] builds when it builds one. *)
Definition frame_of (L : Lib) (data : data_dict) : pd.DataFrame :=
  map (fun c => (fst c, pd.mkSeries (infer_dtype L (snd c)) (snd c))) data.

(** The column [c] of the table of [data], as a one-column table. *)
Definition col_of (L : Lib) (data : data_dict) (c : string) : pd.DataFrame :=
  match pd.lookup c data with
  | Some vs => [(c, pd.mkSeries (infer_dtype L vs) vs)]
  | None => []
  end.

(** Whether column [c] of [data] gets a number dtype. *)
Definition number_column (L : Lib) (data : data_dict) (c : string) : bool :=
  match pd.lookup c data with
  | Some vs => pd.is_number_dtype (infer_dtype L vs)
  | None => false
  end.

(** The columns [describe] reports for the selection [cols]: the number
    columns, or all of them when none is a number column. *)
Definition described (L : Lib) (data : data_dict) (cols : list string)
  : list string :=
  match filter (number_column L data) cols with
  | [] => cols
  | num => num
  end.

(** The number of non-null values of an input sequence. *)
Definition non_null (vs : list value) : nat :=
  List.length (filter (fun v => match v with VNull => false | _ => true end) vs).

(** A request in which every column gets a number dtype. *)
Definition number_only (L : Lib) (data : data_dict) : Prop :=
  forall c vs, In (c, vs) data -> pd.is_number_dtype (infer_dtype L vs) = true.

(** The drawing a line request asks pandas for: [df.plot(kind="line")] of
    the whole table when a selector is omitted, [y] against [x] when both
    are given. *)
Definition line_call (df : pd.DataFrame) (x y : option string) : plt.artist :=
  match x, y with
  | Some _, Some _ => plt.LinePlot df x y
  | _, _ => plt.LinePlot df None None
  end.

(** The same in the words of the specification: all columns if both
    selectors are omitted, otherwise [y] against [x]. *)
Definition line_call_claimed (df : pd.DataFrame) (x y : option string)
  : plt.artist :=
  if is_None x && is_None y then plt.LinePlot df None None
  else plt.LinePlot df x y.

(** [hoare P c Q]: run from a registry satisfying [P], the plotting code
    [c] leaves one satisfying [Q], whether it returns or raises. *)
Definition hoare {A : Type} (P : plt.state -> Prop) (c : plotting A)
    (Q : plt.state -> Prop) : Prop :=
  forall s r s', P s -> c s = (r, s') -> Q s'.

(** The figures of [st] are still open in [s], below at least one figure
    opened since. *)
Definition above (st s : plt.state) : Prop :=
  exists new, new <> [] /\ plt.figs s = (new ++ plt.figs st)%list.

(** The figures of [st] are still open in [s], as they were. *)
Definition keeps (st s : plt.state) : Prop :=
  exists new, plt.figs s = (new ++ plt.figs st)%list.

(** What [plt.title] adds for the [title] argument. *)
Definition title_artists (title : option string) : list plt.artist :=
  match title with
  | Some (String a t) => [plt.Title (String a t)]
  | _ => []
  end.

(** The one drawing call of a kind other than line, on the table of the
    request. *)
Definition drawn (L : Lib) (data : data_dict) (kind : string)
    (x y : option string) (a : plt.artist) : Prop :=
  (kind = "scatter" /\
   exists xc yc xs ys,
     x = Some xc /\ y = Some yc /\
     pd.lookup xc (frame_of L data) = Some xs /\
     pd.lookup yc (frame_of L data) = Some ys /\ a = plt.Scatter xs ys)
  \/ (kind = "histogram" /\
      exists xc xs,
        x = Some xc /\ pd.lookup xc (frame_of L data) = Some xs /\
        a = plt.Hist xs)
  \/ (kind = "heatmap" /\
      exists m, pd.corr (str_is_float L) (frame_of L data) = Ok m /\
                a = plt.Heatmap m).

(** The labels of [cols] that are no column of [data]. *)
Definition missing_columns (data : data_dict) (cols : list string)
  : list string :=
  filter (fun c => negb (existsb (String.eqb c) (names data))) cols.

(** The column labels a kind reads from the table, in the order it reads
    them, when the selectors it needs are given. *)
Definition asked (kind : string) (x y : option string) : option (list string) :=
  if String.eqb kind "scatter" then
    match x, y with
    | Some xc, Some yc => Some [xc; yc]
    | _, _ => None
    end
  else if String.eqb kind "histogram" then
    match x with
    | Some xc => Some [xc]
    | None => None
    end
  else None.

(** The columns [analyze] works on. *)
Definition selection (data : data_dict) (columns : option (list string))
  : list string :=
  match columns with
  | Some (c :: cs) => c :: cs
  | _ => names data
  end.

(** * Properties *)

(** ** Strings *)

Lemma starts_with_app (p s : string) : starts_with p (p ++ s) = true.
Proof.
  induction p as [|a p IH]; simpl.
  - reflexivity.
  - now rewrite Ascii.eqb_refl, IH.
Qed.

Lemma contains_head (needle hay : string) :
  starts_with needle hay = true -> contains needle hay = true.
Proof. intros H. destruct hay; simpl; rewrite H; reflexivity. Qed.

Lemma mentions_contains (needle hay : string) :
  mentions needle hay -> contains needle hay = true.
Proof.
  intros (pre & post & ->).
  induction pre as [|a pre IH].
  - change ("" ++ needle ++ post)%string with (needle ++ post)%string.
    apply contains_head, starts_with_app.
  - simpl. rewrite IH. apply orb_true_r.
Qed.

Lemma append_assoc (a b c : string) : ((a ++ b) ++ c = a ++ (b ++ c))%string.
Proof. induction a as [|x a IH]; simpl; [reflexivity | now rewrite IH]. Qed.

Lemma append_nil_r (a : string) : (a ++ "" = a)%string.
Proof. induction a as [|x a IH]; simpl; [reflexivity | now rewrite IH]. Qed.

Lemma mentions_refl (s : string) : mentions s s.
Proof. exists "", "". simpl. now rewrite append_nil_r. Qed.

Lemma mentions_prepend (p needle hay : string) :
  mentions needle hay -> mentions needle (p ++ hay).
Proof.
  intros (pre & post & ->). exists (p ++ pre)%string, post.
  now rewrite append_assoc.
Qed.

Lemma mentions_trans (a b c : string) :
  mentions a b -> mentions b c -> mentions a c.
Proof.
  intros (p1 & q1 & ->) (p2 & q2 & ->).
  exists (p2 ++ p1)%string, (q1 ++ q2)%string.
  now rewrite !append_assoc.
Qed.

Lemma ref_lib_shows_detail : shows_detail ref_lib.
Proof.
  intros status_code detail. simpl.
  apply mentions_prepend, (mentions_prepend ": "), mentions_refl.
Qed.

(** ** The handler boundary *)

(** C1: in each of the four handlers every exception [e] raised by the body
    comes out as HTTP 400 with detail [str(e)], and a body that returns
    gives a JSON response: 400 is the only error status of a handler. *)
Theorem C1_every_exception_is_400 (L : Lib)
    (decode_utf8 : list Byte.byte -> result string)
    (pd_read_csv : string -> result pd.DataFrame)
    (to_json_records : pd.DataFrame -> result (list (list (string * value))))
    (file : UploadFile) (data : data_dict) (columns : option (list string))
    (kind : string) (x y title : option string) (st : plt.state) :
  let boundary {A : Type} (body : result A) (resp : response A) :=
    match body with
    | Raise e => resp = HTTPError 400 (str L e)
    | Ok content => resp = JSONResponse content
    end in
  boundary (read_csv_body decode_utf8 pd_read_csv to_json_records file)
           (read_csv decode_utf8 pd_read_csv to_json_records L file)
  /\ boundary (describe_body L data) (describe L data)
  /\ boundary (fst (plot_body L data kind x y title st))
              (fst (plot L data kind x y title st))
  /\ boundary (analyze_body L data columns) (analyze L data columns).
Proof.
  cbv zeta. unfold read_csv, describe, analyze, plot.
  repeat split.
  - destruct (read_csv_body _ _ _ _); reflexivity.
  - destruct (describe_body _); reflexivity.
  - destruct (plot_body _ _ _ _ _ _ _) as [[c|e] st']; reflexivity.
  - destruct (analyze_body _ _ _); reflexivity.
Qed.

(** ** plot: the error branches *)

Lemma mk_DataFrame_ok (L : Lib) (data : data_dict) :
  pd.same_length data = true ->
  exists df, pd.mk_DataFrame (infer_dtype L) data = Ok df.
Proof. intros H. unfold pd.mk_DataFrame. rewrite H. eauto. Qed.

Lemma not_plot_kind (kind : string) :
  ~ In kind plot_kinds ->
  String.eqb kind "line" = false /\ String.eqb kind "scatter" = false /\
  String.eqb kind "histogram" = false /\ String.eqb kind "heatmap" = false.
Proof.
  intros H. repeat split; apply String.eqb_neq; intros ->; apply H;
    simpl; tauto.
Qed.

(** What [plot] does once the table is built, for a request that stops at
    one of the handler's own [HTTPException]s: the figure opened on line 53
    is the state that is left. *)
Lemma plot_scatter_missing (L : Lib) (data : data_dict) (df : pd.DataFrame)
    (x y title : option string) (st : plt.state) :
  pd.mk_DataFrame (infer_dtype L) data = Ok df -> x = None \/ y = None ->
  plot_body L data "scatter" x y title st =
  (Raise (HTTPException 400 "x and y are required for scatter plots"),
   snd (plt.new_figure st)).
Proof.
  intros Hdf Hxy. unfold plot_body, pbind, pure, plt_figure. rewrite Hdf.
  simpl. destruct Hxy as [-> | ->]; [|destruct x]; reflexivity.
Qed.

Lemma plot_unsupported (L : Lib) (data : data_dict) (df : pd.DataFrame)
    (kind : string) (x y title : option string) (st : plt.state) :
  pd.mk_DataFrame (infer_dtype L) data = Ok df -> ~ In kind plot_kinds ->
  plot_body L data kind x y title st =
  (Raise (HTTPException 400 ("Unsupported plot type: " ++ kind)),
   snd (plt.new_figure st)).
Proof.
  intros Hdf Hk. destruct (not_plot_kind kind Hk) as (H1 & H2 & H3 & H4).
  unfold plot_body, pbind, pure, plt_figure. rewrite Hdf. simpl.
  rewrite H1, H2, H3, H4. reflexivity.
Qed.

(** C2 as stated fails: a scatter request without [y] whose columns differ
    in length is answered with the table constructor's message, which does
    not mention "x and y". *)
Lemma C2_counterexample :
  ~ (forall (L : Lib) (data : data_dict) (x y title : option string)
            (st : plt.state),
        x = None \/ y = None ->
        exists detail,
          fst (plot L data "scatter" x y title st) = HTTPError 400 detail /\
          mentions "x and y" detail).
Proof.
  intros H.
  destruct (H ref_lib d_mismatch (Some "a") None None st0 (or_intror eq_refl))
    as (detail & Hresp & Hm).
  vm_compute in Hresp. injection Hresp as <-.
  apply mentions_contains in Hm. vm_compute in Hm. discriminate.
Qed.

(** C2, amended: when the table can be built (all columns have the same
    length), a scatter request without [x] or without [y] is answered with
    HTTP 400 whose detail is [str()] of the handler's own exception; it
    mentions "x and y" as soon as [str()] shows the detail. *)
Theorem C2_scatter_requires_x_and_y (L : Lib) (data : data_dict)
    (x y title : option string) (st : plt.state) :
  pd.same_length data = true ->
  x = None \/ y = None ->
  shows_detail L ->
  exists detail,
    fst (plot L data "scatter" x y title st) = HTTPError 400 detail /\
    detail = str L (HTTPException 400 "x and y are required for scatter plots") /\
    mentions "x and y" detail.
Proof.
  intros Hlen Hxy HL. destruct (mk_DataFrame_ok L data Hlen) as [df Hdf].
  unfold plot. rewrite (plot_scatter_missing L data df x y title st Hdf Hxy).
  simpl. eexists; split; [reflexivity | split; [reflexivity|]].
  eapply mentions_trans; [|apply HL].
  exists "", " are required for scatter plots". reflexivity.
Qed.

Lemma C2_scatter_requires_x_and_y_witness :
  exists detail,
    fst (plot ref_lib d_num "scatter" (Some "a") None None st0)
      = HTTPError 400 detail /\
    detail = str ref_lib
               (HTTPException 400 "x and y are required for scatter plots") /\
    mentions "x and y" detail.
Proof.
  apply (C2_scatter_requires_x_and_y ref_lib d_num (Some "a") None None st0).
  - reflexivity.
  - right; reflexivity.
  - exact ref_lib_shows_detail.
Defined.

(** C3 as stated fails: a request for kind "pie" whose columns differ in
    length is answered with the table constructor's message, which does not
    name the kind. *)
Lemma C3_counterexample :
  ~ (forall (L : Lib) (data : data_dict) (kind : string)
            (x y title : option string) (st : plt.state),
        ~ In kind plot_kinds ->
        exists detail,
          fst (plot L data kind x y title st) = HTTPError 400 detail /\
          mentions kind detail).
Proof.
  intros H.
  assert (Hk : ~ In "pie" plot_kinds).
  { simpl. intros [E|[E|[E|[E|[]]]]]; discriminate E. }
  destruct (H ref_lib d_mismatch "pie" None None None st0 Hk)
    as (detail & Hresp & Hm).
  vm_compute in Hresp. injection Hresp as <-.
  apply mentions_contains in Hm. vm_compute in Hm. discriminate.
Qed.

(** C3, amended: when the table can be built, a request with a kind other
    than line, scatter, histogram and heatmap is answered with HTTP 400
    whose detail is [str()] of the handler's "Unsupported plot type"
    exception; it names the kind as soon as [str()] shows the detail. *)
Theorem C3_unsupported_kind (L : Lib) (data : data_dict) (kind : string)
    (x y title : option string) (st : plt.state) :
  pd.same_length data = true ->
  ~ In kind plot_kinds ->
  shows_detail L ->
  exists detail,
    fst (plot L data kind x y title st) = HTTPError 400 detail /\
    detail = str L (HTTPException 400 ("Unsupported plot type: " ++ kind)) /\
    mentions kind detail.
Proof.
  intros Hlen Hk HL. destruct (mk_DataFrame_ok L data Hlen) as [df Hdf].
  unfold plot. rewrite (plot_unsupported L data df kind x y title st Hdf Hk).
  simpl. eexists; split; [reflexivity | split; [reflexivity|]].
  eapply mentions_trans; [|apply HL].
  exists "Unsupported plot type: ", "". now rewrite append_nil_r.
Qed.

Lemma C3_unsupported_kind_witness :
  exists detail,
    fst (plot ref_lib d_num "pie" None None None st0) = HTTPError 400 detail /\
    detail = str ref_lib (HTTPException 400 ("Unsupported plot type: " ++ "pie")) /\
    mentions "pie" detail.
Proof.
  apply (C3_unsupported_kind ref_lib d_num "pie" None None None st0).
  - reflexivity.
  - simpl. intros [E|[E|[E|[E|[]]]]]; discriminate E.
  - exact ref_lib_shows_detail.
Defined.

(** ** plot: heatmap *)

(** C5, on the request [{"a": [1, 2], "b": ["x", "y"]}] with kind
    "heatmap": [df.corr()] is called on the whole table, the string column
    cannot be converted, and the handler answers 400 instead of rendering
    the correlation of the number columns. *)
Theorem C5_heatmap_fails_on_string_column (L : Lib) (x y title : option string)
    (st : plt.state) :
  str_is_float L "x" = false ->
  fst (plot L d_mixed "heatmap" x y title st) =
  HTTPError 400 "could not convert string to float: 'x'".
Proof.
  intros Hx. unfold plot, plot_body, pbind, pure, plt_figure. simpl.
  unfold pd.corr. simpl. rewrite Hx. reflexivity.
Qed.

Lemma C5_heatmap_fails_on_string_column_witness :
  fst (plot ref_lib d_mixed "heatmap" None None None st0) =
  HTTPError 400 "could not convert string to float: 'x'".
Proof.
  apply (C5_heatmap_fails_on_string_column ref_lib None None None st0).
  reflexivity.
Defined.

(** The sibling path: [analyze] selects the number columns before [corr]
    and answers the same table with the correlation of column "a". *)
Lemma analyze_mixed_correlation (L : Lib) :
  infer_dtype L [VInt 1; VInt 2] = pd.int64 ->
  infer_dtype L [VStr "x"; VStr "y"] = pd.object_ ->
  exists c,
    analyze L d_mixed None = JSONResponse c /\
    correlation c = [("a", [("a", pd.Pearson [VInt 1; VInt 2] [VInt 1; VInt 2])])].
Proof.
  intros Ha Hb. unfold analyze, analyze_body, pd.mk_DataFrame. simpl.
  unfold pd.describe, pd.select_number. simpl. rewrite Ha, Hb. simpl.
  eexists. split; reflexivity.
Qed.

(** ** plot: the figure registry *)

(** C8, on the request [{"a": [1]}] with kind "pie": the handler answers
    400 and the figure it opened is still registered when it returns. *)
Theorem C8_figure_left_open_on_error (L : Lib) (x y title : option string)
    (st : plt.state) :
  let out := plot L [("a", [VInt 1])] "pie" x y title st in
  fst out = HTTPError 400 (str L (HTTPException 400 "Unsupported plot type: pie"))
  /\ plt.figs (snd out) = plt.mkFigure (plt.next_num st) [] :: plt.figs st
  /\ In (plt.next_num st) (plt.open_nums (snd out)).
Proof.
  cbv zeta. unfold plot.
  rewrite (plot_unsupported L [("a", [VInt 1])] _ "pie" x y title st eq_refl).
  - simpl. repeat split. now left.
  - simpl. intros [E|[E|[E|[E|[]]]]]; discriminate E.
Qed.

(** Every request that passes table construction and is then refused by the
    handler itself leaves one more figure open than it found. *)
Lemma refused_request_leaks (L : Lib) (data : data_dict) (kind : string)
    (x y title : option string) (st : plt.state) :
  pd.same_length data = true ->
  ~ In kind plot_kinds \/ (kind = "scatter" /\ (x = None \/ y = None)) ->
  List.length (plt.figs (snd (plot L data kind x y title st))) =
  S (List.length (plt.figs st)).
Proof.
  intros Hlen H. destruct (mk_DataFrame_ok L data Hlen) as [df Hdf].
  unfold plot. destruct H as [Hk | [-> Hxy]].
  - rewrite (plot_unsupported L data df kind x y title st Hdf Hk). reflexivity.
  - rewrite (plot_scatter_missing L data df x y title st Hdf Hxy). reflexivity.
Qed.

(** Inversion of a run of plotting code that returned. *)
Lemma pbind_ok {A B : Type} (c : plotting A) (k : A -> plotting B)
    (st st' : plt.state) (b : B) :
  pbind c k st = (Ok b, st') ->
  exists a s1, c st = (Ok a, s1) /\ k a s1 = (Ok b, st').
Proof.
  unfold pbind. destruct (c st) as [[a|e] s1]; [eauto | discriminate].
Qed.

Lemma pure_ok {A : Type} (r : result A) (st st' : plt.state) (a : A) :
  pure r st = (Ok a, st') -> r = Ok a /\ st' = st.
Proof. unfold pure. intros H. injection H as -> ->. auto. Qed.

Lemma draw_ok (L : Lib) (a : plt.artist) (st st' : plt.state) (u : unit) :
  draw L a st = (Ok u, st') ->
  plt.figs st <> [] ->
  plt.figs st' <> [] /\ tl (plt.figs st') = tl (plt.figs st).
Proof.
  unfold draw. destruct (draw_error L a); [discriminate|].
  intros H Hne. injection H as _ <-. unfold plt.add_artist.
  destruct (plt.figs st); [contradiction | simpl; split; [discriminate|reflexivity]].
Qed.

(** The success path of the kinds that draw on the current figure does
    close it: the registry is as it was found. *)
Lemma rendered_request_closes (L : Lib) (data : data_dict) (kind : string)
    (x y title : option string) (st st' : plt.state) (c : plot_content) :
  kind <> "line" ->
  plot L data kind x y title st = (JSONResponse c, st') ->
  plt.figs st' = plt.figs st.
Proof.
  intros Hk. apply String.eqb_neq in Hk. unfold plot.
  destruct (plot_body L data kind x y title st) as [[c'|e] s'] eqn:E;
    [|discriminate].
  intros H. injection H as _ <-. clear c. unfold plot_body in E. rewrite Hk in E.
  apply pbind_ok in E as (df & s1 & Hdf & E).
  apply pbind_ok in E as (n & s2 & Hfig & E).
  apply pbind_ok in E as (u & s3 & Hbranch & E).
  apply pbind_ok in E as (u' & s4 & Htitle & E).
  apply pbind_ok in E as (png & s5 & Hsave & E).
  apply pbind_ok in E as (u'' & s6 & Hclose & E).
  apply pure_ok in Hdf as [_ ->]. apply pure_ok in E as [_ ->].
  unfold plt_close in Hclose. injection Hclose as _ <-.
  unfold plt_savefig in Hsave.
  destruct (savefig_error L _); [discriminate|]. injection Hsave as _ <-.
  unfold plt_figure in Hfig. simpl in Hfig. injection Hfig as _ <-.
  assert (Hne : plt.figs (plt.mkState (plt.mkFigure (plt.next_num st) []
                                         :: plt.figs st)) <> [])
    by (simpl; discriminate).
  assert (Hb : plt.figs s3 <> [] /\ tl (plt.figs s3) = plt.figs st).
  { destruct (String.eqb kind "scatter").
    - destruct x as [xc|], y as [yc|];
        try (apply pure_ok in Hbranch as [Hbranch _]; discriminate Hbranch).
      apply pbind_ok in Hbranch as (xs & t1 & Hx & Hbranch).
      apply pbind_ok in Hbranch as (ys & t2 & Hy & Hbranch).
      apply pure_ok in Hx as [_ ->]. apply pure_ok in Hy as [_ ->].
      apply draw_ok in Hbranch; assumption.
    - destruct (String.eqb kind "histogram").
      + destruct x as [xc|];
          try (apply pure_ok in Hbranch as [Hbranch _]; discriminate Hbranch).
        apply pbind_ok in Hbranch as (xs & t1 & Hx & Hbranch).
        apply pure_ok in Hx as [_ ->].
        apply draw_ok in Hbranch; assumption.
      + destruct (String.eqb kind "heatmap");
          try (apply pure_ok in Hbranch as [Hbranch _]; discriminate Hbranch).
        apply pbind_ok in Hbranch as (m & t1 & Hm & Hbranch).
        apply pure_ok in Hm as [_ ->].
        apply draw_ok in Hbranch; assumption. }
  destruct Hb as [Hne3 Htl]. simpl.
  destruct (truthy_str title).
  - apply draw_ok in Htitle as [_ ->]; assumption.
  - apply pure_ok in Htitle as [_ ->]. exact Htl.
Qed.

(** ** Tables built from a request *)

Lemma mk_DataFrame_inv (L : Lib) (data : data_dict) (df : pd.DataFrame) :
  pd.mk_DataFrame (infer_dtype L) data = Ok df -> df = frame_of L data.
Proof.
  unfold pd.mk_DataFrame. destruct (pd.same_length data); [|discriminate].
  intros H. injection H as <-. reflexivity.
Qed.

Lemma names_frame_of (L : Lib) (data : data_dict) : names (frame_of L data) = names data.
Proof.
  unfold names, frame_of. rewrite map_map. reflexivity.
Qed.

Lemma existsb_eqb_In (c : string) (l : list string) :
  existsb (String.eqb c) l = true <-> In c l.
Proof.
  rewrite existsb_exists. split.
  - intros (x & Hx & E). apply String.eqb_eq in E. now subst.
  - intros H. exists c. split; [assumption | apply String.eqb_refl].
Qed.

Lemma lookup_None {A : Type} (c : string) (l : list (string * A)) :
  pd.lookup c l = None <-> ~ In c (names l).
Proof.
  induction l as [|[k a] l IH]; simpl.
  - tauto.
  - destruct (String.eqb c k) eqn:E.
    + apply String.eqb_eq in E. subst. split; [discriminate | tauto].
    + apply String.eqb_neq in E. rewrite IH. split.
      * intros H [H1 | H1]; [congruence | tauto].
      * tauto.
Qed.

Lemma lookup_In {A : Type} (c : string) (a : A) (l : list (string * A)) :
  NoDup (names l) -> In (c, a) l -> pd.lookup c l = Some a.
Proof.
  induction l as [|[k b] l IH]; simpl; intros Hnd Hin; [contradiction|].
  inversion Hnd as [|? ? Hk Hnd']; subst.
  destruct Hin as [E | Hin].
  - injection E as -> ->. now rewrite String.eqb_refl.
  - destruct (String.eqb c k) eqn:E.
    + apply String.eqb_eq in E. subst. exfalso. apply Hk.
      change k with (fst (k, a)). now apply in_map.
    + now apply IH.
Qed.

Lemma pick_absent (df : pd.DataFrame) (c : string) :
  ~ In c (names df) -> pd.pick df c = [].
Proof.
  induction df as [|[k s] df IH]; simpl; intros H; [reflexivity|].
  destruct (String.eqb c k) eqn:E.
  - apply String.eqb_eq in E. subst. tauto.
  - apply IH. tauto.
Qed.

(** With unique keys, [df[[c]]] is the one column that [lookup] finds. *)
Lemma pick_frame_of (L : Lib) (data : data_dict) (c : string) :
  NoDup (names data) -> pd.pick (frame_of L data) c = col_of L data c.
Proof.
  unfold col_of. induction data as [|[k vs] data IH]; simpl; intros Hnd.
  - reflexivity.
  - inversion Hnd as [|? ? Hk Hnd']; subst.
    destruct (String.eqb c k) eqn:E.
    + apply String.eqb_eq in E. subst. f_equal.
      apply pick_absent. now rewrite names_frame_of.
    + now apply IH.
Qed.

Lemma getitem_list_inv (msg : list string -> list string -> string)
    (df df' : pd.DataFrame)
    (cols : list string) :
  pd.getitem_list msg df cols = Ok df' ->
  df' = flat_map (pd.pick df) cols /\ incl cols (names df).
Proof.
  unfold pd.getitem_list.
  destruct (filter _ cols) as [|m ms] eqn:E; [|discriminate].
  intros H. injection H as <-. split; [reflexivity|].
  intros c Hc. apply existsb_eqb_In. fold (pd.columns df).
  fold (pd.has_column df c).
  destruct (pd.has_column df c) eqn:Hh; [reflexivity|].
  assert (Hin : In c (filter (fun c => negb (pd.has_column df c)) cols)).
  { apply filter_In. now rewrite Hh. }
  rewrite E in Hin. contradiction.
Qed.

Lemma names_flat_col_of (L : Lib) (data : data_dict) (cols : list string) :
  incl cols (names data) -> names (flat_map (col_of L data) cols) = cols.
Proof.
  induction cols as [|c cols IH]; simpl; intros Hin; [reflexivity|].
  unfold names in *. rewrite map_app, IH by (intros x Hx; apply Hin; now right).
  unfold col_of. destruct (pd.lookup c data) eqn:E.
  - reflexivity.
  - apply lookup_None in E. exfalso. apply E, Hin. now left.
Qed.

Lemma select_number_flat (L : Lib) (data : data_dict) (cols : list string) :
  pd.select_number (flat_map (col_of L data) cols) =
  flat_map (col_of L data) (filter (number_column L data) cols).
Proof.
  unfold pd.select_number.
  induction cols as [|c cols IH]; simpl; [reflexivity|].
  rewrite filter_app, IH. unfold number_column at 2, col_of at 1.
  destruct (pd.lookup c data) as [vs|] eqn:E; simpl.
  - destruct (pd.is_number_dtype (infer_dtype L vs)); simpl;
      [unfold col_of at 2; rewrite E|]; reflexivity.
  - reflexivity.
Qed.

Lemma to_json_inv {A : Type} (frame j : list (string * A)) :
  pd.to_json frame = Ok j -> j = frame.
Proof.
  unfold pd.to_json. destruct (pd.unique _); [|discriminate].
  intros H. now injection H.
Qed.

Lemma describe_names (df : pd.DataFrame) (d : list (string * pd.col_stats)) :
  pd.describe df = Ok d ->
  names d = names match pd.select_number df with [] => df | num => num end.
Proof.
  unfold pd.describe. destruct df as [|col df]; [discriminate|].
  intros H. injection H as <-. unfold names. rewrite map_map. reflexivity.
Qed.

(** Keys of [Series.to_dict()]: the labels of the series. *)
Lemma names_dict_set {A : Type} (k : string) (a : A) (d : list (string * A))
    (c : string) :
  In c (names (pd.dict_set k a d)) <-> c = k \/ In c (names d).
Proof.
  induction d as [|[k' a'] d IH]; simpl.
  - intuition congruence.
  - destruct (String.eqb k k') eqn:E; simpl.
    + apply String.eqb_eq in E. subst. intuition congruence.
    + rewrite IH. intuition congruence.
Qed.

Lemma names_to_dict {A : Type} (s : list (string * A)) (c : string) :
  In c (names (pd.to_dict s)) <-> In c (names s).
Proof.
  unfold pd.to_dict.
  assert (H : forall acc,
    In c (names (fold_left (fun d kv => pd.dict_set (fst kv) (snd kv) d) s acc))
    <-> In c (names acc) \/ In c (names s)).
  { induction s as [|[k a] s IH]; intros acc; simpl.
    - tauto.
    - rewrite IH, names_dict_set. intuition congruence. }
  rewrite H. simpl. tauto.
Qed.

(** ** analyze *)

Lemma analyze_inv (L : Lib) (data : data_dict) (columns : option (list string))
    (r : analyze_content) :
  analyze L data columns = JSONResponse r ->
  exists df,
    (if truthy_list columns
     then pd.getitem_list (key_error_msg L) (frame_of L data)
            (match columns with Some cs => cs | None => [] end)
     else Ok (frame_of L data)) = Ok df /\
    names (description r) =
      names match pd.select_number df with [] => df | num => num end /\
    info r = mkInfo (pd.to_dict (pd.dtypes df)) (pd.to_dict (pd.count df)).
Proof.
  unfold analyze, analyze_body.
  destruct (pd.mk_DataFrame (infer_dtype L) data) as [df0|e] eqn:E0; simpl; [|discriminate].
  apply mk_DataFrame_inv in E0. subst df0.
  destruct (if truthy_list columns then _ else _) as [df|e]; simpl;
    [|discriminate].
  destruct (pd.describe df) as [d|e] eqn:Ed; simpl; [|discriminate].
  destruct (pd.corr _ _) as [m|e]; simpl; [|discriminate].
  destruct (pd.to_json d) as [d'|e] eqn:Ej; simpl; [|discriminate].
  destruct (pd.to_json m) as [m'|e]; simpl; [|discriminate].
  intros H. injection H as <-. exists df. simpl.
  apply to_json_inv in Ej. subst d'.
  repeat split. now apply describe_names.
Qed.

Lemma names_dtypes (df : pd.DataFrame) : names (pd.dtypes df) = names df.
Proof. unfold names, pd.dtypes. rewrite map_map. reflexivity. Qed.

Lemma names_count (df : pd.DataFrame) : names (pd.count df) = names df.
Proof. unfold names, pd.count. rewrite map_map. reflexivity. Qed.

(** C4 as stated fails: with the empty list as subset the handler does not
    restrict anything, and [info.dtypes] lists column "a". *)
Lemma C4_counterexample :
  ~ (forall (L : Lib) (data : data_dict) (cols : list string)
            (r : analyze_content),
        NoDup (names data) ->
        incl cols (names data) ->
        analyze L data (Some cols) = JSONResponse r ->
        (forall c, In c (names (description r)) <-> In c cols) /\
        (forall c, In c (names (info_dtypes (info r))) <-> In c cols)).
Proof.
  intros H.
  destruct (analyze ref_lib [("a", [VInt 1])] (Some [])) as [r|] eqn:E;
    [|discriminate E].
  destruct (H ref_lib [("a", [VInt 1])] [] r) as [_ Hd].
  - repeat constructor. simpl. tauto.
  - intros c [].
  - exact E.
  - vm_compute in E. injection E as <-. apply (Hd "a"). simpl. now left.
Qed.

(** A second way C4 fails, on a non-empty subset: the description leaves
    out the string column "b" of the subset ["a"; "b"]. *)
Lemma description_drops_string_column (L : Lib) :
  infer_dtype L [VInt 1; VInt 2] = pd.int64 ->
  infer_dtype L [VStr "x"; VStr "y"] = pd.object_ ->
  exists r, analyze L d_mixed (Some ["a"; "b"]) = JSONResponse r /\
            names (description r) = ["a"] /\
            names (info_dtypes (info r)) = ["a"; "b"].
Proof.
  intros Ha Hb. unfold analyze, analyze_body, pd.mk_DataFrame. simpl.
  unfold pd.describe, pd.select_number. simpl. rewrite Ha, Hb. simpl.
  eexists. repeat split.
Qed.

(** C4, amended: for a non-empty [columns] list (over a dict, whose keys
    are unique), a successful answer has in [info.dtypes] exactly the
    columns of the list, and in [description] exactly its number columns,
    or all of its columns when none of them is a number column. *)
Theorem C4_analyze_subset (L : Lib) (data : data_dict) (cols : list string)
    (r : analyze_content) :
  NoDup (names data) ->
  cols <> [] ->
  analyze L data (Some cols) = JSONResponse r ->
  names (description r) = described L data cols /\
  (forall c, In c (names (info_dtypes (info r))) <-> In c cols) /\
  incl cols (names data).
Proof.
  intros Hnd Hne H. apply analyze_inv in H as (df & Hdf & Hdesc & Hinfo).
  destruct cols as [|c0 cols]; [contradiction|]. simpl truthy_list in Hdf.
  cbv iota in Hdf.
  apply getitem_list_inv in Hdf as [-> Hincl].
  rewrite names_frame_of in Hincl.
  assert (Hpick : flat_map (pd.pick (frame_of L data)) (c0 :: cols)
                  = flat_map (col_of L data) (c0 :: cols)).
  { apply flat_map_ext. intros c. now apply pick_frame_of. }
  rewrite Hpick in *. clear Hpick.
  split; [|split; [|exact Hincl]].
  - rewrite Hdesc, select_number_flat. unfold described.
    destruct (filter (number_column L data) (c0 :: cols)) as [|n ns] eqn:E.
    + simpl flat_map at 1. now apply names_flat_col_of.
    + assert (Hn : incl (n :: ns) (names data)).
      { intros c Hc. apply Hincl. rewrite <- E in Hc.
        now apply filter_In in Hc. }
      pose proof (names_flat_col_of L data (n :: ns) Hn) as Hnames.
      destruct (flat_map (col_of L data) (n :: ns)); [discriminate Hnames|].
      exact Hnames.
  - intros c. rewrite Hinfo. cbn [info_dtypes].
    rewrite names_to_dict, names_dtypes, names_flat_col_of by assumption.
    tauto.
Qed.

Lemma C4_analyze_subset_witness :
  exists r,
    analyze ref_lib d_mixed (Some ["b"; "a"]) = JSONResponse r /\
    names (description r) = ["a"] /\
    (forall c, In c (names (info_dtypes (info r))) <-> In c ["b"; "a"]).
Proof.
  destruct (analyze ref_lib d_mixed (Some ["b"; "a"])) as [r|] eqn:E;
    [|discriminate E].
  exists r. split; [reflexivity|].
  destruct (C4_analyze_subset ref_lib d_mixed ["b"; "a"] r) as (Hd & Hi & _).
  - repeat constructor; simpl; intuition discriminate.
  - discriminate.
  - exact E.
  - split; [exact Hd | exact Hi].
Defined.

(** ** describe *)

Lemma count_values_non_null (vs : list value) : pd.count_values vs = non_null vs.
Proof.
  unfold pd.count_values, non_null. f_equal. apply filter_ext.
  intros [| | | |]; reflexivity.
Qed.


Lemma select_number_all (L : Lib) (data : data_dict) :
  number_only L data -> pd.select_number (frame_of L data) = frame_of L data.
Proof.
  unfold pd.select_number, frame_of. intros H.
  induction data as [|[k vs] data IH]; simpl; [reflexivity|].
  rewrite (H k vs) by now left.
  f_equal. apply IH. intros c ws Hin. apply (H c ws). now right.
Qed.

Lemma unique_NoDup (l : list string) : NoDup l -> pd.unique l = true.
Proof.
  induction 1 as [|x l Hx Hnd IH]; simpl; [reflexivity|].
  rewrite IH, andb_true_r. apply negb_true_iff.
  destruct (existsb (String.eqb x) l) eqn:E; [|reflexivity].
  apply existsb_eqb_In in E. contradiction.
Qed.

Lemma describe_number_only (L : Lib) (data : data_dict) :
  data <> [] -> number_only L data ->
  pd.describe (frame_of L data)
  = Ok (map (fun col => (fst col, pd.describe_1d (snd col))) (frame_of L data)).
Proof.
  intros Hne Hnum. unfold pd.describe. rewrite select_number_all by assumption.
  destruct data as [|c data]; [contradiction|]. reflexivity.
Qed.

(** A number-only request with at least one column and columns of one
    length is answered with statistics. *)
Lemma describe_number_only_succeeds (L : Lib) (data : data_dict) :
  data <> [] -> pd.same_length data = true -> NoDup (names data) ->
  number_only L data ->
  exists r, describe L data = JSONResponse r.
Proof.
  intros Hne Hlen Hnd Hnum. unfold describe, describe_body, pd.mk_DataFrame.
  rewrite Hlen. simpl. fold (frame_of L data).
  rewrite describe_number_only by assumption. simpl.
  unfold pd.to_json.
  replace (names (map _ (frame_of L data))) with (names data).
  - rewrite unique_NoDup by assumption. simpl. eauto.
  - unfold names, frame_of. now rewrite !map_map.
Qed.



(** ** read_csv *)

(** What the handler adds to the parser: when the upload decodes to [text],
    [pd.read_csv] parses it into [df] and the records serialise, the answer
    carries the column labels and the shape of [df]. *)
Lemma read_csv_reports_parsed_table (L : Lib)
    (decode_utf8 : list Byte.byte -> result string)
    (pd_read_csv : string -> result pd.DataFrame)
    (to_json_records : pd.DataFrame -> result (list (list (string * value))))
    (file : UploadFile) (content : list Byte.byte) (text : string)
    (df : pd.DataFrame) (records : list (list (string * value))) :
  read file = Ok content ->
  decode_utf8 content = Ok text ->
  pd_read_csv text = Ok df ->
  to_json_records df = Ok records ->
  read_csv decode_utf8 pd_read_csv to_json_records L file =
  JSONResponse (mkCsv records (pd.columns df) (pd.nrows df, List.length df)).
Proof.
  intros Hr Hd Hp Hj. unfold read_csv, read_csv_body.
  rewrite Hr. simpl. rewrite Hd. simpl. rewrite Hp. simpl. rewrite Hj.
  reflexivity.
Qed.

(** ** Requests that are answered *)

Lemma first_some_None {A B : Type} (f : A -> option B) (l : list A) :
  (forall a, In a l -> f a = None) -> pd.first_some f l = None.
Proof.
  induction l as [|a l IH]; simpl; intros H; [reflexivity|].
  rewrite (H a) by now left. apply IH. intros b Hb. apply H. now right.
Qed.

Lemma first_some_Some {A B : Type} (f : A -> option B) (l : list A) (a : A)
    (b : B) :
  In a l -> f a = Some b -> exists b', pd.first_some f l = Some b'.
Proof.
  induction l as [|a' l IH]; simpl; intros Hin Hf; [contradiction|].
  destruct (f a') eqn:E; [eauto|].
  destruct Hin as [-> | Hin]; [congruence | now apply IH].
Qed.

(** A number column holds no string that [corr] could stumble on. *)
Lemma number_dtype_no_string (L : Lib) (vs : list value) :
  number_dtypes_hold_no_string L ->
  pd.is_number_dtype (infer_dtype L vs) = true ->
  forall v, In v vs -> pd.not_float (str_is_float L) v = None.
Proof.
  intros HL Hnum v Hv. destruct v as [| | | |s]; try reflexivity.
  exfalso. exact (HL vs s Hnum Hv).
Qed.

Lemma corr_select_number (L : Lib) (df : pd.DataFrame) :
  number_dtypes_hold_no_string L ->
  (forall c s, In (c, s) df -> pd.dtype_of s = infer_dtype L (pd.values s)) ->
  exists m, pd.corr (str_is_float L) (pd.select_number df) = Ok m /\
            names m = names (pd.select_number df).
Proof.
  intros HL Hdt. unfold pd.corr. rewrite first_some_None.
  - eexists. split; [reflexivity|]. unfold names. now rewrite map_map.
  - intros [c s] Hin. apply filter_In in Hin as [Hin Hnum]. simpl in *.
    apply first_some_None. rewrite (Hdt c s Hin) in Hnum.
    now apply number_dtype_no_string.
Qed.

Lemma flat_col_of_dtype (L : Lib) (data : data_dict) (cols : list string) (c : string)
    (s : pd.Series) :
  In (c, s) (flat_map (col_of L data) cols) ->
  pd.dtype_of s = infer_dtype L (pd.values s).
Proof.
  rewrite in_flat_map. intros (k & _ & Hin). unfold col_of in Hin.
  destruct (pd.lookup k data); [|contradiction].
  destruct Hin as [E|[]]. injection E as _ <-. reflexivity.
Qed.

Lemma filter_none {A : Type} (f : A -> bool) (l : list A) :
  (forall a, In a l -> f a = false) -> filter f l = [].
Proof.
  induction l as [|a l IH]; simpl; intros H; [reflexivity|].
  rewrite (H a) by now left. apply IH. intros b Hb. apply H. now right.
Qed.

Lemma NoDup_filter {A : Type} (f : A -> bool) (l : list A) :
  NoDup l -> NoDup (filter f l).
Proof.
  induction 1 as [|x l Hx Hnd IH]; simpl; [constructor|].
  destruct (f x); [constructor|]; try assumption.
  intros Hin. apply filter_In in Hin. tauto.
Qed.

(** A non-empty selection of distinct columns of a table that can be built
    is analysed: the answer is a success. *)
Lemma analyze_subset_succeeds (L : Lib) (data : data_dict) (cols : list string) :
  number_dtypes_hold_no_string L ->
  pd.same_length data = true -> NoDup (names data) ->
  cols <> [] -> NoDup cols -> incl cols (names data) ->
  exists r, analyze L data (Some cols) = JSONResponse r.
Proof.
  intros HL Hlen Hnd Hne Hcols Hincl.
  unfold analyze, analyze_body, pd.mk_DataFrame. rewrite Hlen.
  fold (frame_of L data). simpl bind.
  destruct cols as [|c0 cols]; [contradiction|]. simpl truthy_list. cbv iota.
  remember (c0 :: cols) as cs eqn:Ecs.
  unfold pd.getitem_list.
  assert (Hmiss : filter (fun c => negb (pd.has_column (frame_of L data) c)) cs = []).
  { apply filter_none. intros c Hc. apply negb_false_iff.
    unfold pd.has_column, pd.columns. rewrite names_frame_of.
    apply existsb_eqb_In, Hincl, Hc. }
  rewrite Hmiss. simpl bind.
  rewrite (flat_map_ext _ _ (fun c => pick_frame_of L data c Hnd)).
  set (df := flat_map (col_of L data) cs).
  assert (Hnames : names df = cs) by now apply names_flat_col_of.
  destruct (pd.describe df) as [d|e] eqn:Ed.
  2:{ unfold pd.describe in Ed. destruct df; [|discriminate Ed].
      subst cs. discriminate Hnames. }
  simpl bind.
  destruct (corr_select_number L df HL) as (m & Hm & Hmn).
  { intros c s. apply flat_col_of_dtype. }
  rewrite Hm. simpl bind.
  assert (Hsel : names (pd.select_number df)
                 = filter (number_column L data) cs).
  { unfold df. rewrite select_number_flat. apply names_flat_col_of.
    intros c Hc. apply filter_In in Hc. now apply Hincl. }
  unfold pd.to_json. apply describe_names in Ed.
  assert (Hd : NoDup (names d)).
  { rewrite Ed. destruct (pd.select_number df) eqn:Es.
    - now rewrite Hnames.
    - rewrite Hsel. now apply NoDup_filter. }
  rewrite (unique_NoDup _ Hd). simpl bind.
  rewrite Hmn, Hsel, (unique_NoDup _ (NoDup_filter _ _ Hcols)). simpl.
  eauto.
Qed.

(** On every table that can be built and holds a string [float()] rejects,
    the heatmap request is answered with 400. *)
Lemma heatmap_fails_on_strings (L : Lib) (data : data_dict) (c s : string)
    (vs : list value) (x y title : option string) (st : plt.state) :
  pd.same_length data = true ->
  In (c, vs) data -> In (VStr s) vs -> str_is_float L s = false ->
  exists s', fst (plot L data "heatmap" x y title st) =
             HTTPError 400 ("could not convert string to float: '" ++ s' ++ "'").
Proof.
  intros Hlen Hc Hs Hf.
  destruct (first_some_Some (pd.not_float (str_is_float L)) vs (VStr s) s Hs)
    as [s2 Hs2]; [simpl; now rewrite Hf|].
  destruct (first_some_Some
              (fun col => pd.first_some (pd.not_float (str_is_float L))
                            (pd.values (snd col)))
              (frame_of L data) (c, pd.mkSeries (infer_dtype L vs) vs) s2)
    as [s' Hs'].
  - unfold frame_of. apply in_map_iff. exists (c, vs). now split.
  - exact Hs2.
  - unfold plot, plot_body, pbind, pure, plt_figure, pd.mk_DataFrame.
    rewrite Hlen. simpl. unfold pd.corr. fold (frame_of L data).
    rewrite Hs'. simpl. eauto.
Qed.

(** ** plot: figures of other requests *)

Lemma hoare_bind {A B : Type} (P Q R : plt.state -> Prop) (c : plotting A)
    (k : A -> plotting B) :
  hoare P c Q -> (forall a, hoare Q (k a) R) -> (forall s, Q s -> R s) ->
  hoare P (pbind c k) R.
Proof.
  intros Hc Hk HQR s r s' HP. unfold pbind.
  destruct (c s) as [[a|e] s1] eqn:E.
  - intros H. exact (Hk a s1 r s' (Hc s _ s1 HP E) H).
  - intros H. injection H as _ <-. exact (HQR _ (Hc s _ s1 HP E)).
Qed.

Lemma hoare_pure {A : Type} (P : plt.state -> Prop) (r : result A) :
  hoare P (pure r) P.
Proof. intros s r' s' HP H. injection H as _ <-. exact HP. Qed.

Lemma hoare_draw (L : Lib) (st : plt.state) (a : plt.artist) :
  hoare (above st) (draw L a) (above st).
Proof.
  intros s r s' (new & Hne & Hs). unfold draw.
  destruct (draw_error L a); intros H; injection H as _ <-.
  - exists new. auto.
  - unfold plt.add_artist. rewrite Hs.
    destruct new as [|f new]; [contradiction|]. simpl.
    eexists (_ :: new). split; [discriminate | reflexivity].
Qed.

Lemma hoare_df_plot_line (L : Lib) (st : plt.state) (df : pd.DataFrame)
    (x y : option string) :
  hoare (above st) (df_plot_line L df x y) (above st).
Proof.
  intros s r s' (new & Hne & Hs). unfold df_plot_line.
  destruct (draw_error L _); intros H; injection H as _ <-.
  - exists new. auto.
  - unfold plt.add_artist. simpl. rewrite Hs.
    eexists (_ :: new). split; [discriminate | reflexivity].
Qed.

Lemma hoare_savefig (L : Lib) (P : plt.state -> Prop) :
  hoare P (plt_savefig L) P.
Proof.
  intros s r s' HP. unfold plt_savefig.
  destruct (savefig_error L _); intros H; injection H as _ <-; exact HP.
Qed.

Lemma above_keeps (st s : plt.state) : above st s -> keeps st s.
Proof. intros (new & _ & H). now exists new. Qed.

Lemma hoare_close (st : plt.state) : hoare (above st) plt_close (keeps st).
Proof.
  intros s r s' (new & Hne & Hs) H. unfold plt_close in H.
  injection H as _ <-. destruct new as [|f new]; [contradiction|].
  exists new. simpl. now rewrite Hs.
Qed.

(** The figures that were open when a plot request arrived are open, in the
    same order and with the same content, when the handler returns: the
    handler draws on and closes only figures opened for the request. *)
Theorem plot_keeps_open_figures (L : Lib) (data : data_dict) (kind : string)
    (x y title : option string) (st : plt.state) :
  exists new,
    plt.figs (snd (plot L data kind x y title st)) = (new ++ plt.figs st)%list.
Proof.
  unfold plot.
  destruct (plot_body L data kind x y title st) as [r s'] eqn:E. simpl.
  assert (H : hoare (fun s => s = st) (plot_body L data kind x y title)
                    (keeps st)).
  2:{ exact (H st r s' eq_refl E). }
  unfold plot_body.
  apply (hoare_bind _ (fun s => s = st)); [apply hoare_pure | |].
  2:{ intros s ->. now exists []. }
  intros df.
  apply (hoare_bind _ (above st)).
  { intros s r0 s0 -> H. unfold plt_figure in H. simpl in H.
    injection H as _ <-. eexists [_]. split; [discriminate | reflexivity]. }
  2:{ apply above_keeps. }
  intros _.
  apply (hoare_bind _ (above st)); [| |apply above_keeps].
  { destruct (String.eqb kind "line").
    { destruct x, y; apply hoare_df_plot_line. }
    destruct (String.eqb kind "scatter").
    { destruct x, y; try apply hoare_pure.
      apply (hoare_bind _ (above st)); [apply hoare_pure | |auto]. intros xs.
      apply (hoare_bind _ (above st)); [apply hoare_pure | |auto]. intros ys.
      apply hoare_draw. }
    destruct (String.eqb kind "histogram").
    { destruct x; try apply hoare_pure.
      apply (hoare_bind _ (above st)); [apply hoare_pure | |auto]. intros xs.
      apply hoare_draw. }
    destruct (String.eqb kind "heatmap"); try apply hoare_pure.
    apply (hoare_bind _ (above st)); [apply hoare_pure | |auto]. intros m.
    apply hoare_draw. }
  intros _.
  apply (hoare_bind _ (above st)); [| |apply above_keeps].
  { destruct (truthy_str title); [apply hoare_draw | apply hoare_pure]. }
  intros _.
  apply (hoare_bind _ (above st)); [apply hoare_savefig | |apply above_keeps].
  intros png.
  apply (hoare_bind _ (keeps st)); [apply hoare_close | |auto].
  intros _. apply hoare_pure.
Qed.

(** ** plot: what a rendered answer holds *)

Lemma state_eta (s : plt.state) : plt.mkState (plt.figs s) = s.
Proof. destruct s; reflexivity. Qed.

Lemma draw_ok_head (L : Lib) (a : plt.artist) (s s' : plt.state) (u : unit)
    (f : plt.figure) (fs : list plt.figure) :
  draw L a s = (Ok u, s') -> plt.figs s = f :: fs ->
  s' = plt.mkState (plt.mkFigure (plt.num f) (plt.artists f ++ [a]) :: fs).
Proof.
  unfold draw. destruct (draw_error L a); [discriminate|].
  intros H Hf. injection H as _ <-. unfold plt.add_artist. now rewrite Hf.
Qed.

Lemma getitem_ok (L : Lib) (df : pd.DataFrame) (c : string) (s : pd.Series) :
  pd.getitem (repr L) df c = Ok s <-> pd.lookup c df = Some s.
Proof.
  unfold pd.getitem. destruct (pd.lookup c df); split; intros H;
    try discriminate H; injection H as ->; reflexivity.
Qed.

Lemma title_ok (L : Lib) (title : option string) (s s' : plt.state) (u : unit)
    (f : plt.figure) (fs : list plt.figure) :
  (if truthy_str title
   then draw L (plt.Title (match title with Some t => t | None => "" end))
   else pure (Ok tt)) s = (Ok u, s') ->
  plt.figs s = f :: fs ->
  s' = plt.mkState
         (plt.mkFigure (plt.num f) (plt.artists f ++ title_artists title) :: fs).
Proof.
  destruct title as [[|a t]|]; simpl; intros H Hf;
    try (apply pure_ok in H as [_ ->]; rewrite app_nil_r;
         destruct s as [figs]; simpl in *; subst figs; destruct f; reflexivity).
  now apply (draw_ok_head L _ s s' u f fs).
Qed.

(** A rendered answer of a kind other than line: the image shows the one
    drawing of the kind on the request's columns, followed by the title when
    a non-empty one was given, on the figure [plt.figure()] opened; the
    registry is left exactly as it was found. *)
Theorem plot_rendered (L : Lib) (data : data_dict) (kind : string)
    (x y title : option string) (st st' : plt.state) (c : plot_content) :
  kind <> "line" ->
  plot L data kind x y title st = (JSONResponse c, st') ->
  st' = st /\
  exists a,
    drawn L data kind x y a /\
    plot_png c = plt.mkFigure (plt.next_num st) (a :: title_artists title).
Proof.
  intros Hk. apply String.eqb_neq in Hk. unfold plot.
  destruct (plot_body L data kind x y title st) as [[c'|e] s'] eqn:E;
    [|discriminate].
  intros H. injection H as <- <-. unfold plot_body in E. rewrite Hk in E.
  apply pbind_ok in E as (df & s1 & Hdf & E).
  apply pbind_ok in E as (n & s2 & Hfig & E).
  apply pbind_ok in E as (u & s3 & Hbranch & E).
  apply pbind_ok in E as (u' & s4 & Htitle & E).
  apply pbind_ok in E as (png & s5 & Hsave & E).
  apply pbind_ok in E as (u'' & s6 & Hclose & E).
  apply pure_ok in Hdf as [Hdf ->]. apply mk_DataFrame_inv in Hdf. subst df.
  apply pure_ok in E as [E ->]. injection E as <-.
  unfold plt_close in Hclose. injection Hclose as _ <-.
  unfold plt_figure in Hfig. simpl in Hfig. injection Hfig as _ <-.
  set (f0 := plt.mkFigure (plt.next_num st) []) in *.
  assert (Hb : exists a, drawn L data kind x y a /\
              s3 = plt.mkState (plt.mkFigure (plt.next_num st) [a]
                                  :: plt.figs st)).
  { unfold drawn. destruct (String.eqb kind "scatter") eqn:Ks.
    - apply String.eqb_eq in Ks.
      destruct x as [xc|], y as [yc|];
        try (apply pure_ok in Hbranch as [Hbranch _]; discriminate Hbranch).
      apply pbind_ok in Hbranch as (xs & t1 & Hx & Hbranch).
      apply pbind_ok in Hbranch as (ys & t2 & Hy & Hbranch).
      apply pure_ok in Hx as [Hx ->]. apply pure_ok in Hy as [Hy ->].
      apply (getitem_ok L) in Hx, Hy.
      apply (draw_ok_head L _ _ _ _ f0 (plt.figs st)) in Hbranch;
        [|reflexivity].
      exists (plt.Scatter xs ys). split; [|exact Hbranch].
      left. split; [exact Ks|]. exists xc, yc, xs, ys. auto.
    - destruct (String.eqb kind "histogram") eqn:Kh.
      + apply String.eqb_eq in Kh.
        destruct x as [xc|];
          try (apply pure_ok in Hbranch as [Hbranch _]; discriminate Hbranch).
        apply pbind_ok in Hbranch as (xs & t1 & Hx & Hbranch).
        apply pure_ok in Hx as [Hx ->]. apply (getitem_ok L) in Hx.
        apply (draw_ok_head L _ _ _ _ f0 (plt.figs st)) in Hbranch;
          [|reflexivity].
        exists (plt.Hist xs). split; [|exact Hbranch].
        right; left. split; [exact Kh|]. exists xc, xs. auto.
      + destruct (String.eqb kind "heatmap") eqn:Km;
          try (apply pure_ok in Hbranch as [Hbranch _]; discriminate Hbranch).
        apply String.eqb_eq in Km.
        apply pbind_ok in Hbranch as (m & t1 & Hm & Hbranch).
        apply pure_ok in Hm as [Hm ->].
        apply (draw_ok_head L _ _ _ _ f0 (plt.figs st)) in Hbranch;
          [|reflexivity].
        exists (plt.Heatmap m). split; [|exact Hbranch].
        right; right. split; [exact Km|]. exists m. auto. }
  destruct Hb as (a & Ha & ->).
  apply (title_ok L title _ _ _ (plt.mkFigure (plt.next_num st) [a])
           (plt.figs st)) in Htitle; [|reflexivity].
  subst s4. unfold plt_savefig in Hsave. simpl in Hsave.
  destruct (savefig_error L _); [discriminate|]. injection Hsave as <- <-.
  split; [apply state_eta|]. exists a. split; [exact Ha | reflexivity].
Qed.

Lemma plot_rendered_witness :
  snd (plot ref_lib d_num "scatter" (Some "a") (Some "b") (Some "t") st0) = st0 /\
  exists a,
    drawn ref_lib d_num "scatter" (Some "a") (Some "b") a /\
    plot_png
      match fst (plot ref_lib d_num "scatter" (Some "a") (Some "b") (Some "t") st0)
      with
      | JSONResponse c => c
      | HTTPError _ _ => mkPlot (plt.mkFigure 0 [])
      end
    = plt.mkFigure 1 (a :: title_artists (Some "t")).
Proof.
  destruct (plot ref_lib d_num "scatter" (Some "a") (Some "b") (Some "t") st0)
    as [[c|] s'] eqn:E; [|discriminate E].
  apply (plot_rendered ref_lib d_num "scatter" (Some "a") (Some "b") (Some "t")
           st0 s' c).
  - discriminate.
  - exact E.
Defined.

(** Conversely: when the table can be built, the drawing of the kind is
    defined on the request's columns, and neither the drawing calls nor
    [savefig] raise, the request is answered with that image and the
    registry is as it was found. *)
Theorem plot_renders (L : Lib) (data : data_dict) (kind : string)
    (x y title : option string) (st : plt.state) (a : plt.artist) :
  pd.same_length data = true ->
  drawn L data kind x y a ->
  draw_error L a = None ->
  (forall t, draw_error L (plt.Title t) = None) ->
  savefig_error L (plt.mkFigure (plt.next_num st) (a :: title_artists title))
    = None ->
  plot L data kind x y title st =
  (JSONResponse
     (mkPlot (plt.mkFigure (plt.next_num st) (a :: title_artists title))),
   st).
Proof.
  intros Hlen Hd Ha Ht Hs.
  assert (Hfin : forall s,
    s = plt.mkState (plt.mkFigure (plt.next_num st) [a] :: plt.figs st) ->
    (let (r, s') :=
       pbind (if truthy_str title
              then draw L (plt.Title (match title with Some t => t | None => "" end))
              else pure (Ok tt))
         (fun _ => pbind (plt_savefig L)
            (fun png => pbind plt_close (fun _ => pure (Ok (mkPlot png))))) s
     in (except_400 L r, s')) =
    (JSONResponse
       (mkPlot (plt.mkFigure (plt.next_num st) (a :: title_artists title))),
     st)).
  { intros s ->. unfold pbind, pure, plt_savefig, plt_close, draw.
    destruct title as [[|c t]|]; simpl; try rewrite Ht; simpl;
      simpl in Hs; rewrite Hs; unfold plt.close; simpl;
      rewrite state_eta; reflexivity. }
  unfold plot, plot_body, pd.mk_DataFrame. rewrite Hlen.
  fold (frame_of L data). unfold pbind at 1. unfold pure at 1.
  unfold pbind at 1. unfold plt_figure. simpl plt.new_figure. cbv iota beta.
  destruct Hd as [[-> (xc & yc & xs & ys & -> & -> & Hx & Hy & ->)]
                 |[[-> (xc & xs & -> & Hx & ->)]
                  |[-> (m & Hm & ->)]]]; simpl String.eqb; cbv iota.
  - apply (getitem_ok L) in Hx, Hy. unfold pbind at 1. unfold pbind at 1.
    unfold pure at 1. rewrite Hx. unfold pbind at 1. unfold pure at 1.
    rewrite Hy. unfold draw at 1. rewrite Ha. apply Hfin. reflexivity.
  - apply (getitem_ok L) in Hx. unfold pbind at 1. unfold pbind at 1.
    unfold pure at 1. rewrite Hx. unfold draw at 1. rewrite Ha.
    apply Hfin. reflexivity.
  - unfold pbind at 1. unfold pbind at 1. unfold pure at 1. rewrite Hm.
    unfold draw at 1. rewrite Ha. apply Hfin. reflexivity.
Qed.

Lemma plot_renders_witness :
  plot ref_lib d_num "histogram" (Some "b") None (Some "counts") st0 =
  (JSONResponse
     (mkPlot (plt.mkFigure 1
                [plt.Hist (pd.mkSeries pd.float64 [VFloat 15 (-1); VInt 2; VInt 4]);
                 plt.Title "counts"])),
   st0).
Proof.
  apply (plot_renders ref_lib d_num "histogram" (Some "b") None (Some "counts")
           st0 (plt.Hist (pd.mkSeries pd.float64 [VFloat 15 (-1); VInt 2; VInt 4]))).
  - reflexivity.
  - right; left. split; [reflexivity|].
    exists "b", (pd.mkSeries pd.float64 [VFloat 15 (-1); VInt 2; VInt 4]).
    repeat split.
  - reflexivity.
  - reflexivity.
  - reflexivity.
Defined.

(** ** plot: requests that are refused *)

Lemma lookup_frame_None (L : Lib) (data : data_dict) (c : string) :
  ~ In c (names data) -> pd.lookup c (frame_of L data) = None.
Proof. intros H. apply lookup_None. now rewrite names_frame_of. Qed.

Lemma lookup_frame_Some (L : Lib) (data : data_dict) (c : string) :
  In c (names data) -> exists s, pd.lookup c (frame_of L data) = Some s.
Proof.
  intros H. destruct (pd.lookup c (frame_of L data)) eqn:E; [eauto|].
  apply lookup_None in E. rewrite names_frame_of in E. contradiction.
Qed.

Lemma missing_head (data : data_dict) (cols : list string) (c : string)
    (rest : list string) :
  missing_columns data cols = c :: rest ->
  exists before after,
    cols = (before ++ c :: after)%list /\ ~ In c (names data) /\
    forall b, In b before -> In b (names data).
Proof.
  unfold missing_columns. induction cols as [|k cols IH]; simpl; [discriminate|].
  destruct (existsb (String.eqb k) (names data)) eqn:E; simpl; intros H.
  - destruct (IH H) as (before & after & -> & Hc & Hb).
    exists (k :: before), after. repeat split; [exact Hc|].
    intros b [<- | Hin]; [now apply existsb_eqb_In | now apply Hb].
  - injection H as -> _. exists [], cols. repeat split.
    + intros Hin. apply existsb_eqb_In in Hin. congruence.
    + intros b [].
Qed.

(** A histogram request without [x], on data from which the table can be
    built, is answered 400 with [str()] of the handler's "x is required for
    histograms" exception, whatever [y] and the title are. *)
Theorem histogram_requires_x (L : Lib) (data : data_dict)
    (y title : option string) (st : plt.state) :
  pd.same_length data = true ->
  shows_detail L ->
  exists detail,
    fst (plot L data "histogram" None y title st) = HTTPError 400 detail /\
    detail = str L (HTTPException 400 "x is required for histograms") /\
    mentions "x is required" detail.
Proof.
  intros Hlen HL. unfold plot, plot_body, pbind, pure, plt_figure,
    pd.mk_DataFrame. rewrite Hlen. simpl.
  eexists. split; [reflexivity | split; [reflexivity|]].
  eapply mentions_trans; [|apply HL].
  exists "", " for histograms". reflexivity.
Qed.

Lemma histogram_requires_x_witness :
  exists detail,
    fst (plot ref_lib d_num "histogram" None (Some "a") None st0)
      = HTTPError 400 detail /\
    detail = str ref_lib (HTTPException 400 "x is required for histograms") /\
    mentions "x is required" detail.
Proof.
  apply (histogram_requires_x ref_lib d_num (Some "a") None st0).
  - reflexivity.
  - exact ref_lib_shows_detail.
Defined.

(** A scatter or histogram request that names a column the data does not
    have is answered 400 with [repr] of the first such label, which is how
    [KeyError] prints it; the figure opened for the request stays open. *)
Theorem plot_unknown_column (L : Lib) (data : data_dict) (kind : string)
    (x y title : option string) (st : plt.state) (cols rest : list string)
    (c : string) :
  pd.same_length data = true ->
  asked kind x y = Some cols ->
  missing_columns data cols = c :: rest ->
  plot L data kind x y title st =
  (HTTPError 400 (repr L c), snd (plt.new_figure st)).
Proof.
  intros Hlen Hasked Hmiss.
  destruct (missing_head data cols c rest Hmiss)
    as (before & after & Hcols & Hc & Hb).
  apply (lookup_frame_None L) in Hc.
  unfold asked in Hasked.
  unfold plot, plot_body, pd.mk_DataFrame. rewrite Hlen. fold (frame_of L data).
  unfold pbind at 1. unfold pure at 1. unfold pbind at 1.
  unfold plt_figure. simpl plt.new_figure. cbv iota beta.
  destruct (String.eqb kind "scatter") eqn:Ks.
  - apply String.eqb_eq in Ks. subst kind. simpl String.eqb. cbv iota.
    destruct x as [xc|]; [|discriminate]. destruct y as [yc|]; [|discriminate].
    injection Hasked as <-.
    unfold pbind, pure, pd.getitem.
    destruct before as [|b before].
    + injection Hcols as -> _. rewrite Hc. reflexivity.
    + injection Hcols as -> Hcols.
      destruct (lookup_frame_Some L data b (Hb b (or_introl eq_refl))) as [s ->].
      destruct before as [|b' before].
      * injection Hcols as -> _. rewrite Hc. reflexivity.
      * destruct before; discriminate Hcols.
  - destruct (String.eqb kind "histogram") eqn:Kh; [|discriminate].
    apply String.eqb_eq in Kh. subst kind. simpl String.eqb. cbv iota.
    destruct x as [xc|]; [|discriminate]. injection Hasked as <-.
    unfold pbind, pure, pd.getitem.
    destruct before as [|b before].
    + injection Hcols as -> _. rewrite Hc. reflexivity.
    + destruct before; discriminate Hcols.
Qed.

Lemma plot_unknown_column_witness :
  plot ref_lib d_num "scatter" (Some "a") (Some "z") None st0 =
  (HTTPError 400 (repr ref_lib "z"), plt.mkState [plt.mkFigure 1 []]).
Proof.
  apply (plot_unknown_column ref_lib d_num "scatter" (Some "a") (Some "z") None
           st0 ["a"; "z"] [] "z"); reflexivity.
Defined.

(** Data whose columns differ in length is refused by describe, analyze and
    plot alike, with status 400 and the table constructor's message; plot
    then has opened no figure. *)
Theorem mismatched_lengths_refused (L : Lib) (data : data_dict) :
  pd.same_length data = false ->
  let refused {A : Type} (r : response A) :=
    r = HTTPError 400 "All arrays must be of the same length" in
  refused (describe L data) /\
  (forall columns, refused (analyze L data columns)) /\
  (forall kind x y title st,
      refused (fst (plot L data kind x y title st)) /\
      snd (plot L data kind x y title st) = st).
Proof.
  intros Hlen. cbv zeta.
  unfold describe, describe_body, analyze, analyze_body, plot, plot_body,
    pbind, pure, pd.mk_DataFrame.
  rewrite Hlen. simpl. repeat split.
Qed.

Lemma mismatched_lengths_refused_witness :
  describe ref_lib d_mismatch
    = HTTPError 400 "All arrays must be of the same length" /\
  (forall columns,
      analyze ref_lib d_mismatch columns
      = HTTPError 400 "All arrays must be of the same length") /\
  (forall kind x y title st,
      fst (plot ref_lib d_mismatch kind x y title st)
      = HTTPError 400 "All arrays must be of the same length" /\
      snd (plot ref_lib d_mismatch kind x y title st) = st).
Proof.
  apply (mismatched_lengths_refused ref_lib d_mismatch). reflexivity.
Defined.

(** ** describe and analyze: what an answer holds *)

Lemma col_of_cons_other (L : Lib) (k : string) (vs : list value) (data : data_dict)
    (c : string) :
  c <> k -> col_of L ((k, vs) :: data) c = col_of L data c.
Proof.
  intros H. unfold col_of. simpl. apply String.eqb_neq in H. now rewrite H.
Qed.

(** With unique keys the table is its columns looked up by label. *)
Lemma frame_of_flat (L : Lib) (data : data_dict) :
  NoDup (names data) -> frame_of L data = flat_map (col_of L data) (names data).
Proof.
  induction data as [|[k vs] data IH]; simpl; intros Hnd; [reflexivity|].
  inversion Hnd as [|? ? Hk Hnd']; subst.
  unfold col_of at 1. simpl. rewrite String.eqb_refl. simpl. f_equal.
  rewrite IH by assumption. clear IH.
  assert (H : forall l, ~ In k l ->
            flat_map (col_of L data) l = flat_map (col_of L ((k, vs) :: data)) l).
  { induction l as [|c l IHl]; simpl; intros Hl; [reflexivity|].
    rewrite col_of_cons_other, IHl by tauto. reflexivity. }
  now apply H.
Qed.

Lemma lookup_dict_set {A : Type} (k c : string) (a : A) (d : list (string * A)) :
  pd.lookup c (pd.dict_set k a d)
  = if String.eqb c k then Some a else pd.lookup c d.
Proof.
  induction d as [|[k' a'] d IH]; simpl.
  - reflexivity.
  - destruct (String.eqb k k') eqn:E; simpl.
    + apply String.eqb_eq in E. subst k'. destruct (String.eqb c k); reflexivity.
    + rewrite IH. destruct (String.eqb c k') eqn:E'; [|reflexivity].
      apply String.eqb_eq in E'. subst k'.
      rewrite String.eqb_sym, E. reflexivity.
Qed.

(** [Series.to_dict()] on a label all of whose entries hold the same
    value. *)
Lemma lookup_to_dict {A : Type} (s : list (string * A)) (c : string) (v : A) :
  In c (names s) -> (forall a, In (c, a) s -> a = v) ->
  pd.lookup c (pd.to_dict s) = Some v.
Proof.
  unfold pd.to_dict. intros Hin Hv.
  assert (H : forall acc,
    In c (names s) \/ pd.lookup c acc = Some v ->
    pd.lookup c (fold_left (fun d kv => pd.dict_set (fst kv) (snd kv) d) s acc)
    = Some v).
  { clear Hin. induction s as [|[k a] s IH]; intros acc Hc; simpl.
    - destruct Hc as [[] | Hc]. exact Hc.
    - apply IH; [intros b Hb; apply Hv; now right|].
      rewrite lookup_dict_set. simpl in Hc.
      destruct (String.eqb c k) eqn:E.
      + apply String.eqb_eq in E. subst k. right. f_equal. apply Hv. now left.
      + apply String.eqb_neq in E. destruct Hc as [[Hc | Hc] | Hc]; auto.
        congruence. }
  apply H. now left.
Qed.

Lemma in_flat_col_of (L : Lib) (data : data_dict) (cols : list string) (c : string)
    (s : pd.Series) :
  In (c, s) (flat_map (col_of L data) cols) ->
  exists vs, pd.lookup c data = Some vs /\ In c cols /\
             s = pd.mkSeries (infer_dtype L vs) vs.
Proof.
  rewrite in_flat_map. intros (k & Hk & Hin). unfold col_of in Hin.
  destruct (pd.lookup k data) as [vs|] eqn:E; [|contradiction].
  destruct Hin as [H|[]]. injection H as <- <-. eauto.
Qed.

Lemma lookup_Some_In {A : Type} (c : string) (a : A) (l : list (string * A)) :
  pd.lookup c l = Some a -> In (c, a) l.
Proof.
  induction l as [|[k b] l IH]; simpl; [discriminate|].
  destruct (String.eqb c k) eqn:E.
  - apply String.eqb_eq in E. intros H. injection H as <-. subst. now left.
  - intros H. right. now apply IH.
Qed.

(** The table [analyze] works on, for a dict. *)
Lemma analyze_table (L : Lib) (data : data_dict) (columns : option (list string))
    (df : pd.DataFrame) :
  NoDup (names data) ->
  (if truthy_list columns
   then pd.getitem_list (key_error_msg L) (frame_of L data)
          (match columns with Some cs => cs | None => [] end)
   else Ok (frame_of L data)) = Ok df ->
  df = flat_map (col_of L data) (selection data columns) /\
  incl (selection data columns) (names data).
Proof.
  intros Hnd. destruct columns as [[|c cs]|]; cbn [truthy_list selection].
  - intros H. injection H as <-. split; [now apply frame_of_flat | apply incl_refl].
  - intros H. apply getitem_list_inv in H as [-> Hincl].
    rewrite names_frame_of in Hincl. split; [|exact Hincl].
    apply flat_map_ext. intros a. now apply pick_frame_of.
  - intros H. injection H as <-. split; [now apply frame_of_flat | apply incl_refl].
Qed.

(** Every column [analyze] works on is reported in [info] with its inferred
    dtype and the number of its non-null values, also when the selection
    names a column more than once. *)
Theorem analyze_info (L : Lib) (data : data_dict)
    (columns : option (list string)) (r : analyze_content) :
  NoDup (names data) ->
  analyze L data columns = JSONResponse r ->
  forall c, In c (selection data columns) ->
    exists vs,
      pd.lookup c data = Some vs /\
      pd.lookup c (non_null_counts (info r)) = Some (non_null vs) /\
      pd.lookup c (info_dtypes (info r))
        = Some (pd.dtype_str (infer_dtype L vs)).
Proof.
  intros Hnd H c Hc. apply analyze_inv in H as (df & Hdf & _ & Hinfo).
  apply analyze_table in Hdf as [-> Hincl]; [|assumption].
  destruct (pd.lookup c data) as [vs|] eqn:E.
  2:{ apply lookup_None in E. exfalso. apply E, Hincl, Hc. }
  exists vs. split; [reflexivity|]. rewrite Hinfo. simpl.
  set (df := flat_map (col_of L data) (selection data columns)).
  assert (Hn : names df = selection data columns)
    by now apply names_flat_col_of.
  split.
  - apply lookup_to_dict.
    + now rewrite names_count, Hn.
    + intros a Ha. unfold pd.count in Ha. apply in_map_iff in Ha.
      destruct Ha as ([k s] & Hks & Hin). simpl in Hks. injection Hks as -> <-.
      apply in_flat_col_of in Hin as (ws & Hws & _ & ->). simpl.
      rewrite E in Hws. injection Hws as <-. apply count_values_non_null.
  - apply lookup_to_dict.
    + now rewrite names_dtypes, Hn.
    + intros a Ha. unfold pd.dtypes in Ha. apply in_map_iff in Ha.
      destruct Ha as ([k s] & Hks & Hin). simpl in Hks. injection Hks as -> <-.
      apply in_flat_col_of in Hin as (ws & Hws & _ & ->). simpl.
      rewrite E in Hws. now injection Hws as <-.
Qed.

Lemma analyze_info_witness :
  exists vs,
    pd.lookup "b" d_mixed = Some vs /\
    pd.lookup "b"
      (non_null_counts
         (info match analyze ref_lib d_mixed (Some ["b"; "a"; "b"]) with
               | JSONResponse r => r
               | HTTPError _ _ => mkAnalyze [] [] (mkInfo [] [])
               end)) = Some (non_null vs) /\
    pd.lookup "b"
      (info_dtypes
         (info match analyze ref_lib d_mixed (Some ["b"; "a"; "b"]) with
               | JSONResponse r => r
               | HTTPError _ _ => mkAnalyze [] [] (mkInfo [] [])
               end)) = Some (pd.dtype_str (infer_dtype ref_lib vs)).
Proof.
  destruct (analyze ref_lib d_mixed (Some ["b"; "a"; "b"])) as [r|] eqn:E;
    [|discriminate E].
  apply (analyze_info ref_lib d_mixed (Some ["b"; "a"; "b"]) r).
  - repeat constructor; simpl; intuition discriminate.
  - exact E.
  - simpl. now left.
Defined.

Lemma corr_inv (f : string -> bool) (df : pd.DataFrame) (m : pd.corr_matrix) :
  pd.corr f df = Ok m ->
  names m = names df /\
  forall c row, In (c, row) m -> names row = names df.
Proof.
  unfold pd.corr. destruct (pd.first_some _ df); [discriminate|].
  intros H. injection H as <-. split.
  - unfold names. now rewrite map_map.
  - intros c row Hin. apply in_map_iff in Hin as (ci & E & _).
    injection E as _ <-. unfold names. now rewrite map_map.
Qed.

Lemma analyze_inv_full (L : Lib) (data : data_dict)
    (columns : option (list string)) (r : analyze_content) :
  analyze L data columns = JSONResponse r ->
  exists df,
    pd.mk_DataFrame (infer_dtype L) data = Ok (frame_of L data) /\
    (if truthy_list columns
     then pd.getitem_list (key_error_msg L) (frame_of L data)
            (match columns with Some cs => cs | None => [] end)
     else Ok (frame_of L data)) = Ok df /\
    pd.describe df = Ok (description r) /\
    pd.to_json (description r) = Ok (description r) /\
    pd.corr (str_is_float L) (pd.select_number df) = Ok (correlation r) /\
    info r = mkInfo (pd.to_dict (pd.dtypes df)) (pd.to_dict (pd.count df)).
Proof.
  unfold analyze, analyze_body.
  destruct (pd.mk_DataFrame (infer_dtype L) data) as [df0|e] eqn:E0; simpl; [|discriminate].
  apply mk_DataFrame_inv in E0. subst df0.
  destruct (if truthy_list columns then _ else _) as [df|e]; simpl;
    [|discriminate].
  destruct (pd.describe df) as [d|e] eqn:Ed; simpl; [|discriminate].
  destruct (pd.corr _ _) as [m|e] eqn:Ec; simpl; [|discriminate].
  destruct (pd.to_json d) as [d'|e] eqn:Ej; simpl; [|discriminate].
  destruct (pd.to_json m) as [m'|e] eqn:Em; simpl; [|discriminate].
  intros H. injection H as <-. exists df. simpl.
  pose proof (to_json_inv _ _ Ej). pose proof (to_json_inv _ _ Em). subst d' m'.
  split; [reflexivity|]. split; [reflexivity|]. split; [exact Ed|].
  split; [exact Ej|]. split; [exact Ec | reflexivity].
Qed.

(** The correlation of a successful answer is square over exactly the number
    columns of the selection: its keys, and the keys of each of its rows,
    are those columns in the order of the selection. *)
Theorem analyze_correlation_square (L : Lib) (data : data_dict)
    (columns : option (list string)) (r : analyze_content) :
  NoDup (names data) ->
  analyze L data columns = JSONResponse r ->
  names (correlation r) = filter (number_column L data) (selection data columns) /\
  forall c row, In (c, row) (correlation r) ->
    names row = names (correlation r).
Proof.
  intros Hnd H.
  apply analyze_inv_full in H as (df & _ & Hdf & _ & _ & Hc & _).
  apply analyze_table in Hdf as [-> Hincl]; [|assumption].
  apply corr_inv in Hc as [Hn Hrows].
  assert (Hsel : names (pd.select_number
                          (flat_map (col_of L data) (selection data columns)))
                 = filter (number_column L data) (selection data columns)).
  { rewrite select_number_flat. apply names_flat_col_of.
    intros c Hc. apply filter_In in Hc. now apply Hincl. }
  split.
  - now rewrite Hn.
  - intros c row Hin. now rewrite Hn, (Hrows c row Hin).
Qed.

Lemma analyze_correlation_square_witness :
  names (correlation
           match analyze ref_lib d_mixed (Some ["b"; "a"]) with
           | JSONResponse r => r
           | HTTPError _ _ => mkAnalyze [] [] (mkInfo [] [])
           end)
  = filter (number_column ref_lib d_mixed) (selection d_mixed (Some ["b"; "a"])).
Proof.
  destruct (analyze ref_lib d_mixed (Some ["b"; "a"])) as [r|] eqn:E;
    [|discriminate E].
  apply (analyze_correlation_square ref_lib d_mixed (Some ["b"; "a"]) r).
  - repeat constructor; simpl; intuition discriminate.
  - exact E.
Defined.

(** A non-empty [columns] list naming labels the data does not have is
    refused with 400 and the [KeyError] text pandas builds from the list
    and exactly its missing labels, in the order they were asked for;
    neither the values of the data nor its other columns matter. *)
Theorem analyze_missing_columns (L : Lib) (data : data_dict)
    (cols : list string) (m : string) (ms : list string) :
  pd.same_length data = true ->
  cols <> [] ->
  missing_columns data cols = m :: ms ->
  analyze L data (Some cols) = HTTPError 400 (key_error_msg L cols (m :: ms)).
Proof.
  intros Hlen Hne Hm. unfold analyze, analyze_body, pd.mk_DataFrame.
  rewrite Hlen. fold (frame_of L data). simpl bind.
  destruct cols as [|c cs]; [contradiction|]. cbn [truthy_list].
  unfold pd.getitem_list.
  replace (filter (fun c0 => negb (pd.has_column (frame_of L data) c0)) (c :: cs))
    with (missing_columns data (c :: cs)).
  - rewrite Hm. reflexivity.
  - unfold missing_columns. apply filter_ext. intros a.
    unfold pd.has_column, pd.columns. now rewrite names_frame_of.
Qed.

Lemma analyze_missing_columns_witness :
  analyze ref_lib d_mixed (Some ["z"; "a"; "q"])
  = HTTPError 400 (key_error_msg ref_lib ["z"; "a"; "q"] ["z"; "q"]).
Proof.
  apply (analyze_missing_columns ref_lib d_mixed ["z"; "a"; "q"] "z" ["q"]).
  - reflexivity.
  - discriminate.
  - reflexivity.
Defined.

(** Without [columns], analyze reports what describe reports: when analyze
    answers, describe answers the same data with the same statistics and
    the same dtypes. *)
Theorem analyze_agrees_with_describe (L : Lib) (data : data_dict)
    (columns : option (list string)) (r : analyze_content) :
  truthy_list columns = false ->
  analyze L data columns = JSONResponse r ->
  describe L data =
  JSONResponse (mkDescribe (description r) (info_dtypes (info r))).
Proof.
  intros Hc H.
  apply analyze_inv_full in H as (df & Hmk & Hdf & Hd & Hj & _ & Hinfo).
  rewrite Hc in Hdf. injection Hdf as <-.
  unfold describe, describe_body. rewrite Hmk. simpl. rewrite Hd. simpl.
  rewrite Hj. simpl. rewrite Hinfo. reflexivity.
Qed.

Lemma analyze_agrees_with_describe_witness :
  describe ref_lib d_mixed =
  JSONResponse
    (mkDescribe
       (description match analyze ref_lib d_mixed (Some []) with
                    | JSONResponse r => r
                    | HTTPError _ _ => mkAnalyze [] [] (mkInfo [] [])
                    end)
       (info_dtypes
          (info match analyze ref_lib d_mixed (Some []) with
                | JSONResponse r => r
                | HTTPError _ _ => mkAnalyze [] [] (mkInfo [] [])
                end))).
Proof.
  destruct (analyze ref_lib d_mixed (Some [])) as [r|] eqn:E; [|discriminate E].
  apply (analyze_agrees_with_describe ref_lib d_mixed (Some []) r).
  - reflexivity.
  - exact E.
Defined.

Lemma describe_inv (df : pd.DataFrame) (d : list (string * pd.col_stats)) :
  pd.describe df = Ok d ->
  df <> [] /\
  d = map (fun col => (fst col, pd.describe_1d (snd col)))
          match pd.select_number df with [] => df | num => num end.
Proof.
  unfold pd.describe. destruct df as [|col df]; [discriminate|].
  intros H. injection H as <-. split; [discriminate | reflexivity].
Qed.

(** What [describe] reports of the columns [cols] of a dict. *)
Lemma describe_entries (L : Lib) (data : data_dict) (cols : list string)
    (d : list (string * pd.col_stats)) :
  incl cols (names data) ->
  pd.describe (flat_map (col_of L data) cols) = Ok d ->
  names d = described L data cols /\
  forall c st, In (c, st) d ->
    exists vs, pd.lookup c data = Some vs /\ In c cols /\
               pd.stat_count st = non_null vs.
Proof.
  intros Hincl H. apply describe_inv in H as [_ ->].
  rewrite select_number_flat. split.
  - unfold names. rewrite map_map. simpl. fold (@names pd.Series).
    unfold described.
    destruct (filter (number_column L data) cols) as [|n ns] eqn:E.
    + simpl flat_map at 1. now apply names_flat_col_of.
    + assert (Hn : incl (n :: ns) (names data)).
      { intros c Hc. apply Hincl. rewrite <- E in Hc.
        now apply filter_In in Hc. }
      pose proof (names_flat_col_of L data (n :: ns) Hn) as Hnames.
      destruct (flat_map (col_of L data) (n :: ns)); [discriminate Hnames|].
      exact Hnames.
  - intros c st Hin. apply in_map_iff in Hin as ([k s] & E & Hin).
    simpl in E. injection E as -> <-.
    assert (Hin' : In (c, s) (flat_map (col_of L data) cols)).
    { destruct (flat_map (col_of L data) (filter (number_column L data) cols))
        as [|p l] eqn:Ef; [exact Hin|].
      rewrite <- Ef in Hin. apply in_flat_map in Hin as (a & Ha & Hin).
      apply in_flat_map. exists a. split; [|exact Hin].
      now apply filter_In in Ha. }
    apply in_flat_col_of in Hin' as (vs & Hvs & Hc & ->).
    exists vs. repeat split; try assumption.
    simpl. apply count_values_non_null.
Qed.

(** A successful answer of describe on a dict: [statistics] holds the
    number columns of the data (all columns when there is none), each with
    the count of its non-null values, and [dtypes] holds every column with
    its inferred dtype. *)
Theorem describe_answer (L : Lib) (data : data_dict) (r : describe_content) :
  NoDup (names data) ->
  describe L data = JSONResponse r ->
  names (statistics r) = described L data (names data) /\
  (forall c st, In (c, st) (statistics r) ->
     exists vs, pd.lookup c data = Some vs /\ pd.stat_count st = non_null vs) /\
  (forall c vs, In (c, vs) data ->
     pd.lookup c (dtypes r) = Some (pd.dtype_str (infer_dtype L vs))).
Proof.
  intros Hnd H. unfold describe, describe_body in H.
  destruct (pd.mk_DataFrame (infer_dtype L) data) as [df|e] eqn:E; simpl in H; [|discriminate].
  apply mk_DataFrame_inv in E. subst df.
  destruct (pd.describe (frame_of L data)) as [d|e] eqn:Ed; simpl in H;
    [|discriminate].
  destruct (pd.to_json d) as [j|e] eqn:Ej; simpl in H; [|discriminate].
  apply to_json_inv in Ej. subst j. injection H as <-. simpl.
  rewrite frame_of_flat in Ed by assumption.
  apply describe_entries in Ed as [Hn He]; [|apply incl_refl].
  split; [exact Hn|]. split.
  - intros c st Hin. destruct (He c st Hin) as (vs & Hvs & _ & Hc). eauto.
  - intros c vs Hin. apply lookup_to_dict.
    + rewrite names_dtypes, names_frame_of.
      change c with (fst (c, vs)). now apply in_map.
    + intros a Ha. unfold pd.dtypes, frame_of in Ha. rewrite map_map in Ha.
      apply in_map_iff in Ha as ([k ws] & Ek & Hk). simpl in Ek.
      injection Ek as -> <-.
      pose proof (lookup_In c vs data Hnd Hin) as E1.
      pose proof (lookup_In c ws data Hnd Hk) as E2.
      rewrite E1 in E2. now injection E2 as <-.
Qed.

Lemma describe_answer_witness :
  names (statistics match describe ref_lib d_mixed with
                    | JSONResponse r => r
                    | HTTPError _ _ => mkDescribe [] []
                    end)
  = described ref_lib d_mixed (names d_mixed).
Proof.
  destruct (describe ref_lib d_mixed) as [r|] eqn:E; [|discriminate E].
  apply (describe_answer ref_lib d_mixed r).
  - repeat constructor; simpl; intuition discriminate.
  - exact E.
Defined.

(** Every entry of the description of a successful analyze answer belongs
    to a column of the selection and counts the non-null values of that
    column; the entries are the number columns of the selection, or all of
    it when it has none. *)
Theorem analyze_description (L : Lib) (data : data_dict)
    (columns : option (list string)) (r : analyze_content) :
  NoDup (names data) ->
  analyze L data columns = JSONResponse r ->
  names (description r) = described L data (selection data columns) /\
  forall c st, In (c, st) (description r) ->
    exists vs, pd.lookup c data = Some vs /\ In c (selection data columns) /\
               pd.stat_count st = non_null vs.
Proof.
  intros Hnd H.
  apply analyze_inv_full in H as (df & _ & Hdf & Hd & _).
  apply analyze_table in Hdf as [-> Hincl]; [|assumption].
  now apply describe_entries.
Qed.

Lemma analyze_description_witness :
  names (description match analyze ref_lib d_num None with
                     | JSONResponse r => r
                     | HTTPError _ _ => mkAnalyze [] [] (mkInfo [] [])
                     end)
  = described ref_lib d_num (selection d_num None).
Proof.
  destruct (analyze ref_lib d_num None) as [r|] eqn:E; [|discriminate E].
  apply (analyze_description ref_lib d_num None r).
  - repeat constructor; simpl; intuition discriminate.
  - exact E.
Defined.

(** A request without any column is never analysed or described: describe
    refuses the empty dict with the message of [DataFrame.describe], and
    analyze refuses it whatever [columns] is. *)
Theorem empty_data_refused (L : Lib) (columns : option (list string)) :
  describe L [] =
    HTTPError 400 "Cannot describe a DataFrame without columns" /\
  exists detail, analyze L [] columns = HTTPError 400 detail.
Proof.
  split; [reflexivity|].
  destruct columns as [[|c cs]|]; eexists; reflexivity.
Qed.

(** ** plot: line *)

(** C9 as stated fails: with [x] given and [y] omitted the image the handler
    returns is not a plot against [x]; it is the plot of all columns. *)
Lemma C9_counterexample :
  ~ (forall (L : Lib) (data : data_dict) (x y title : option string)
            (st : plt.state) (c : plot_content),
        fst (plot L data "line" x y title st) = JSONResponse c ->
        hd_error (plt.artists (plot_png c))
        = Some (line_call_claimed (frame_of L data) x y)).
Proof.
  intros H.
  destruct (fst (plot ref_lib d_num "line" (Some "a") None None st0))
    as [c|] eqn:E; [|discriminate E].
  specialize (H ref_lib d_num (Some "a") None None st0 c E).
  vm_compute in E. injection E as <-. vm_compute in H. discriminate H.
Qed.

(** C9, amended: for a line request whose table can be built, the drawing
    the handler asks for is the plot of all columns when [x] or [y] is
    omitted and the plot of [y] against [x] when both are given.  When that
    call raises, the answer is 400 with its message; when neither it nor
    the title and save calls raise, the answer is the image of that plot,
    with the title when a non-empty one was given. *)
Theorem C9_line_plot (L : Lib) (data : data_dict) (x y title : option string)
    (st : plt.state) :
  pd.same_length data = true ->
  let a := line_call (frame_of L data) x y in
  (x = None \/ y = None -> a = plt.LinePlot (frame_of L data) None None) /\
  (forall xc yc, x = Some xc -> y = Some yc ->
     a = plt.LinePlot (frame_of L data) (Some xc) (Some yc)) /\
  (forall e, draw_error L a = Some e ->
     fst (plot L data "line" x y title st) = HTTPError 400 (str L e)) /\
  (draw_error L a = None ->
   (forall t, draw_error L (plt.Title t) = None) ->
   (forall f, savefig_error L f = None) ->
   exists c,
     fst (plot L data "line" x y title st) = JSONResponse c /\
     plt.artists (plot_png c) = a :: title_artists title).
Proof.
  intros Hlen a. split; [|split; [|split]].
  - unfold a, line_call. intros [-> | ->]; [|destruct x]; reflexivity.
  - intros xc yc -> ->. reflexivity.
  - intros e He. unfold plot, plot_body, pd.mk_DataFrame. rewrite Hlen.
    fold (frame_of L data). unfold pbind, pure, plt_figure. simpl.
    unfold a, line_call in He.
    destruct x, y; unfold df_plot_line; rewrite He; reflexivity.
  - intros Ha Ht Hs. unfold plot, plot_body, pd.mk_DataFrame. rewrite Hlen.
    fold (frame_of L data). unfold pbind, pure, plt_figure, plt_savefig,
      plt_close, draw. simpl.
    unfold a, line_call in *.
    destruct x, y; unfold df_plot_line; rewrite Ha; simpl;
      (destruct title as [[|ch t]|]; simpl; try rewrite Ht; simpl;
       rewrite Hs; simpl; eexists; split; reflexivity).
Qed.

Lemma C9_line_plot_witness :
  exists c,
    fst (plot ref_lib d_num "line" (Some "a") (Some "b") (Some "t") st0)
      = JSONResponse c /\
    plt.artists (plot_png c)
      = line_call (frame_of ref_lib d_num) (Some "a") (Some "b")
          :: title_artists (Some "t").
Proof.
  apply (C9_line_plot ref_lib d_num (Some "a") (Some "b") (Some "t") st0);
    reflexivity.
Defined.

(** ** analyze: the empty list of columns *)

(** C10 as stated fails: with the empty list (as without [columns]) the
    description and the correlation do not cover the string column "b". *)
Lemma C10_counterexample :
  ~ (forall (L : Lib) (data : data_dict) (r : analyze_content),
        NoDup (names data) ->
        analyze L data (Some []) = JSONResponse r ->
        analyze L data (Some []) = analyze L data None /\
        forall c, In c (names data) ->
          In c (names (description r)) /\ In c (names (correlation r)) /\
          In c (names (info_dtypes (info r)))).
Proof.
  intros H.
  destruct (analyze ref_lib d_mixed (Some [])) as [r|] eqn:E; [|discriminate E].
  destruct (H ref_lib d_mixed r) as [_ Hc].
  - repeat constructor; simpl; intuition discriminate.
  - exact E.
  - destruct (Hc "b") as [Hd _]; [simpl; tauto|].
    vm_compute in E. injection E as <-. simpl in Hd.
    destruct Hd as [Hd|[]]. discriminate Hd.
Qed.

(** C10, amended: the empty list for [columns] is answered exactly as a
    request without [columns].  No restriction is applied: when the answer
    is a success, [info] covers every column of the data, the description
    covers its number columns (all columns when there is none) and the
    correlation its number columns. *)
Theorem C10_empty_columns_not_a_restriction (L : Lib) (data : data_dict) :
  analyze L data (Some []) = analyze L data None /\
  forall r,
    NoDup (names data) ->
    analyze L data (Some []) = JSONResponse r ->
    (forall c, In c (names (info_dtypes (info r))) <-> In c (names data)) /\
    (forall c, In c (names (non_null_counts (info r))) <-> In c (names data)) /\
    names (description r) = described L data (names data) /\
    names (correlation r) = filter (number_column L data) (names data).
Proof.
  split; [reflexivity|]. intros r Hnd H.
  apply analyze_inv_full in H as (df & _ & Hdf & Hd & _ & Hc & Hinfo).
  simpl in Hdf. injection Hdf as <-. rewrite Hinfo. cbn [info_dtypes non_null_counts].
  split; [|split; [|split]].
  - intros c. now rewrite names_to_dict, names_dtypes, names_frame_of.
  - intros c. now rewrite names_to_dict, names_count, names_frame_of.
  - rewrite frame_of_flat in Hd by assumption.
    apply describe_entries in Hd as [Hn _]; [exact Hn | apply incl_refl].
  - apply corr_inv in Hc as [Hn _]. rewrite Hn.
    rewrite frame_of_flat by assumption. rewrite select_number_flat.
    apply names_flat_col_of. intros c Hin. now apply filter_In in Hin.
Qed.

Lemma C10_empty_columns_not_a_restriction_witness :
  analyze ref_lib d_mixed (Some []) = analyze ref_lib d_mixed None /\
  names (description match analyze ref_lib d_mixed (Some []) with
                     | JSONResponse r => r
                     | HTTPError _ _ => mkAnalyze [] [] (mkInfo [] [])
                     end) = ["a"] /\
  names (correlation match analyze ref_lib d_mixed (Some []) with
                     | JSONResponse r => r
                     | HTTPError _ _ => mkAnalyze [] [] (mkInfo [] [])
                     end) = ["a"].
Proof.
  destruct (C10_empty_columns_not_a_restriction ref_lib d_mixed) as [Heq H].
  split; [exact Heq|].
  destruct (analyze ref_lib d_mixed (Some [])) as [r|] eqn:E; [|discriminate E].
  destruct (H r) as (_ & _ & Hd & Hc).
  - repeat constructor; simpl; intuition discriminate.
  - reflexivity.
  - split; [exact Hd | exact Hc].
Defined.
